(** * KotobaID backend: the Vertex AI connection lifecycle and request gateway

    A shallow embedding of
      - [src/config/vertexai.js]            (class [VertexAIConfig], the singleton),
      - [src/middleware/vertexaiMiddleware.js] ([ensureVertexAI], [addVertexAIModel]),
      - [src/middleware/errorHandler.js]    ([notFound], [errorHandler]),
      - the router ([routes/vertexai.js]: the five templated operations),
    followed by the properties of the connection manager and of the gateway.

    JavaScript [async] functions are written in a small resumption monad
    ([Async]): code between two [await]s is one atomic segment, an [await]
    hands control back to the event loop.  The same definition is run to
    completion ([run]) for the sequential properties and interleaved with
    other calls ([EventLoop]) for the concurrent ones. *)

From Stdlib Require Import String Ascii List ZArith QArith Bool Arith Lia.
From Stdlib Require Import DecimalString.
Import ListNotations.
Open Scope list_scope.
Open Scope string_scope.

Set Implicit Arguments.

(* ================================================================= *)
(** ** JavaScript values the program handles *)

Module Js.

(** A JS number as far as this program uses one: it is parsed, tested for
    truthiness and copied, never computed with. *)
Inductive number : Type :=
| NaN
| Num (q : Q).

Definition number_truthy (n : number) : bool :=
  match n with
  | NaN => false
  | Num q => negb (Qnum q =? 0)%Z
  end.

(** [a || b] on numbers. *)
Definition number_or (a b : number) : number :=
  if number_truthy a then a else b.

(** A string read from [process.env] or from a request body:
    [None] is [undefined]. *)
Definition str_truthy (s : option string) : bool :=
  match s with
  | None => false
  | Some "" => false
  | Some _ => true
  end.

(** [a || b] where [b] is a string literal. *)
Definition str_or (a : option string) (b : string) : string :=
  match a with
  | Some s => if str_truthy a then s else b
  | None => b
  end.

(** [`${x}`] for a value that may be [undefined]. *)
Definition template (x : option string) : string :=
  match x with
  | Some s => s
  | None => "undefined"
  end.

(** [hay.includes(needle)]. *)
Fixpoint includes (needle hay : string) : bool :=
  if prefix needle hay then true
  else match hay with
       | EmptyString => false
       | String _ rest => includes needle rest
       end.

(** The objects passed to [res.json] and the like. *)
#[local] Unset Elimination Schemes.
Inductive value : Type :=
| Undefined
| Null
| Bool (b : bool)
| Number (n : number)
| Str (s : string)
| Arr (l : list value)
| Obj (fields : list (string * value)).
#[local] Set Elimination Schemes.

(** The double quote, for string literals that contain one. *)
Definition dq : string := String "034"%char EmptyString.

(** The line feed, for template literals that span lines. *)
Definition nl : string := String "010"%char EmptyString.

Definition of_opt_str (s : option string) : value :=
  match s with
  | Some x => Str x
  | None => Undefined
  end.

(** [x || null] for a string [x] that may be [undefined]. *)
Definition str_or_null (s : option string) : value :=
  if str_truthy s then of_opt_str s else Null.

(** What [catch (error)] binds, as far as the program looks into it:
    [error.name], [error.kind], [error.message], [error.stack].  Of
    [error.stack] the object records the header line only ([None]: the
    value has no stack); the call frames under it are the engine's.
    [error.stack] itself is [stack_of], below: the header followed by the
    frames, which are read through the world ([stack_frames]). *)
Record Error : Type := mkError {
  name : string;
  kind : option string;
  message : option string;
  stack_header : option string
}.

(** [new Error(msg)].  The header line of its stack is fixed by the name
    and the message. *)
Definition new_Error (msg : string) : Error :=
  {| name := "Error"; kind := None; message := Some msg;
     stack_header := Some ("Error: " ++ msg) |}.

Definition new_TypeError (msg : string) : Error :=
  {| name := "TypeError"; kind := None; message := Some msg;
     stack_header := Some ("TypeError: " ++ msg) |}.

(** What reading property [prop] of [null] or [undefined] throws. *)
Definition TypeError_read (base prop : string) : Error :=
  new_TypeError ("Cannot read properties of " ++ base ++ " (reading '" ++ prop ++ "')").

(** What calling [x.f(...)] throws when [x.f] is not a function. *)
Definition TypeError_call (callee : string) : Error :=
  new_TypeError (callee ++ " is not a function").

(** [!!v] *)
Definition truthy (v : value) : bool :=
  match v with
  | Undefined | Null => false
  | Bool b => b
  | Number n => number_truthy n
  | Str s => negb (s =? "")
  | Arr _ | Obj _ => true
  end.

(** [obj.key] on a parsed JSON object. *)
Fixpoint get (key : string) (fields : list (string * value)) : value :=
  match fields with
  | [] => Undefined
  | (k, v) :: rest => if k =? key then v else get key rest
  end.

(** [key in obj], for the own keys of a parsed JSON object. *)
Definition has_key (key : string) (fields : list (string * value)) : bool :=
  existsb (fun kv => fst kv =? key) fields.

(** What converting to a string throws for an object that has no usable
    [toString]. *)
Definition TypeError_primitive : Error :=
  new_TypeError "Cannot convert object to primitive value".

Section ToString.
(** [String(n)] for a number is left to the engine. *)
Variable number_toString : number -> string.

(** [`${v}`].  A parsed JSON object has the inherited [toString] unless a
    key of its own named "toString" hides it; such a key never holds a
    function, the inherited [valueOf] returns the object itself, and the
    conversion throws.  An array joins the conversions of its elements,
    in order. *)
Fixpoint to_string (v : value) : Error + string :=
  match v with
  | Undefined => inr "undefined"
  | Null => inr "null"
  | Bool true => inr "true"
  | Bool false => inr "false"
  | Number n => inr (number_toString n)
  | Str s => inr s
  | Arr l =>
      (fix join (l : list value) : Error + string :=
         let elt x := match x with
                      | Undefined | Null => inr ""
                      | _ => to_string x
                      end in
         match l with
         | [] => inr ""
         | [x] => elt x
         | x :: rest =>
             match elt x with
             | inl e => inl e
             | inr s =>
                 match join rest with
                 | inl e => inl e
                 | inr t => inr (s ++ "," ++ t)
                 end
             end
         end) l
  | Obj fields =>
      if has_key "toString" fields then inl TypeError_primitive
      else inr "[object Object]"
  end.
End ToString.

(** A template literal: the pieces are converted and joined from left to
    right, and the first conversion that throws ends it. *)
Fixpoint interpolate (parts : list (Error + string)) : Error + string :=
  match parts with
  | [] => inr ""
  | inl e :: _ => inl e
  | inr s :: rest =>
      match interpolate rest with
      | inl e => inl e
      | inr t => inr (s ++ t)
      end
  end.

(** The strings of a list of conversions, or the first error among them. *)
Fixpoint all_of (parts : list (Error + string)) : Error + list string :=
  match parts with
  | [] => inr []
  | inl e :: _ => inl e
  | inr s :: rest =>
      match all_of rest with
      | inl e => inl e
      | inr l => inr (s :: l)
      end
  end.

End Js.

(* ================================================================= *)
(** ** The world outside the program *)

(** The handle [new VertexAI({project, location})] returns. *)
Record Client : Type := mkClient {
  client_project : string;
  client_location : string
}.

(** What [vertexAI.preview.getGenerativeModel({...})] returns. *)
Record GenerativeModel : Type := mkModel {
  gm_client : Client;
  gm_model : string;
  gm_maxOutputTokens : Js.number;
  gm_temperature : Js.number
}.

(** What [await model.generateContent(prompt)] yields: an object whose
    [response], once awaited, has a [text()] that returns the text or
    throws. *)
Record GenerateContentResult : Type := mkResult {
  response_text : Js.Error + string
}.

(** Everything the program reads from its surroundings: the process
    environment, the file system, the clock, the built-ins it calls and the
    remote service.  A world is fixed while a call runs; two calls made at
    different times may see different worlds. *)
Record World : Type := mkWorld {
  env : string -> option string;                 (* process.env[...] *)
  parseInt : option string -> Js.number;
  parseFloat : option string -> Js.number;
  number_toString : Js.number -> string;          (* String(n) *)
  stack_frames : Js.Error -> string;              (* the frames of error.stack *)
  gt_zero : Js.value -> bool;                     (* v > 0, with its coercions *)
  trim : string -> string;                        (* String.prototype.trim *)
  now : string;                                   (* new Date().toISOString() *)
  path_resolve : string -> string;                (* path.resolve *)
  fs_existsSync : string -> bool;                 (* fs.existsSync *)
  new_VertexAI : string -> string -> Js.Error + Client;
  generateContent : GenerativeModel -> string -> Js.Error + GenerateContentResult
}.

(* ================================================================= *)
(** ** The resumption monad for [async] functions *)

Section AsyncMonad.

Variable Heap : Type.     (* the shared mutable object *)
Variable Event : Type.    (* observable effects *)

Inductive Async (A : Type) : Type :=
| Ret (a : A)                                   (* return a *)
| Throw (e : Js.Error)                          (* throw e *)
| Read (k : Heap -> Async A)                    (* read the shared object *)
| Write (f : Heap -> Heap) (k : Async A)        (* assign to its fields *)
| Emit (ev : Event) (k : Async A)               (* an observable effect *)
| Await (k : Async A).                          (* suspension point *)

Arguments Ret {A}.
Arguments Throw {A}.

(** [settle m k]: run [m], hand its completion (value or exception) to [k]. *)
Fixpoint settle {A B} (m : Async A) (k : Js.Error + A -> Async B) : Async B :=
  match m with
  | Ret a => k (inr a)
  | Throw e => k (inl e)
  | Read f => Read (fun h => settle (f h) k)
  | Write f m' => Write f (settle m' k)
  | Emit ev m' => Emit ev (settle m' k)
  | Await m' => Await (settle m' k)
  end.

Definition bind {A B} (m : Async A) (f : A -> Async B) : Async B :=
  settle m (fun r => match r with inr a => f a | inl e => Throw e end).

(** [try { m } catch (error) { h error }] *)
Definition try_catch {A} (m : Async A) (h : Js.Error -> Async A) : Async A :=
  settle m (fun r => match r with inr a => Ret a | inl e => h e end).

(** [await m] where [m] is a call of an async function: the callee runs,
    and the caller resumes in a later turn of the event loop, whether the
    promise was fulfilled or rejected. *)
Definition await {A} (m : Async A) : Async A :=
  settle m (fun r => Await (match r with inr a => Ret a | inl e => Throw e end)).

(** A synchronous call that may throw. *)
Definition lift {A} (r : Js.Error + A) : Async A :=
  match r with inr a => Ret a | inl e => Throw e end.

(** Run to completion, alone: the final result, the object afterwards and
    the effects in order. *)
Fixpoint run {A} (m : Async A) (h : Heap) : (Js.Error + A) * Heap * list Event :=
  match m with
  | Ret a => (inr a, h, [])
  | Throw e => (inl e, h, [])
  | Read f => run (f h) h
  | Write f m' => run m' (f h)
  | Emit ev m' => let '(r, h', t) := run m' h in (r, h', ev :: t)
  | Await m' => run m' h
  end.

Definition result {A} (m : Async A) (h : Heap) : Js.Error + A := fst (fst (run m h)).
Definition heap_after {A} (m : Async A) (h : Heap) : Heap := snd (fst (run m h)).
Definition trace {A} (m : Async A) (h : Heap) : list Event := snd (run m h).

(** One turn: run the current segment up to the next suspension point. *)
Fixpoint advance {A} (m : Async A) (h : Heap) : Async A * Heap * list Event :=
  match m with
  | Ret a => (Ret a, h, [])
  | Throw e => (Throw e, h, [])
  | Read f => advance (f h) h
  | Write f m' => advance m' (f h)
  | Emit ev m' => let '(r, h', t) := advance m' h in (r, h', ev :: t)
  | Await m' => (m', h, [])
  end.


End AsyncMonad.

Arguments Ret {Heap Event A}.
Arguments Throw {Heap Event A}.
Arguments Read {Heap Event A}.
Arguments Write {Heap Event A}.
Arguments Emit {Heap Event A}.
Arguments Await {Heap Event A}.
Arguments lift {Heap Event A} r.

Declare Scope async_scope.
Delimit Scope async_scope with async.
Notation "x <- m ;; k" := (bind m (fun x => k))
  (at level 61, m at next level, right associativity) : async_scope.
Notation "m ;; k" := (bind m (fun _ => k))
  (at level 61, right associativity) : async_scope.
Open Scope async_scope.

(* ================================================================= *)
(** ** [src/config/vertexai.js] *)

(** The observable effects of the connection manager and of the gateway. *)
Inductive Event : Type :=
| EvInitialize                                     (* initialize() entered (its first log line) *)
| EvExistsSync (fullPath : string)                 (* fs.existsSync(fullPath) *)
| EvNewVertexAI (project location : string)        (* new VertexAI({project, location}) *)
| EvGenerateContent (m : GenerativeModel) (prompt : string).   (* the remote call *)

(** The fields of [class VertexAIConfig]. *)
Record VertexAIConfig : Type := mkConfig {
  projectId : string;
  location : string;
  model : string;
  maxTokens : Js.number;
  temperature : Js.number;
  vertexAI : option Client;
  isInitialized : bool;
  initError : option Js.Error
}.

Definition set_vertexAI (c : option Client) (this : VertexAIConfig) : VertexAIConfig :=
  mkConfig (projectId this) (location this) (model this) (maxTokens this)
           (temperature this) c (isInitialized this) (initError this).

Definition set_isInitialized (b : bool) (this : VertexAIConfig) : VertexAIConfig :=
  mkConfig (projectId this) (location this) (model this) (maxTokens this)
           (temperature this) (vertexAI this) b (initError this).

Definition set_initError (e : option Js.Error) (this : VertexAIConfig) : VertexAIConfig :=
  mkConfig (projectId this) (location this) (model this) (maxTokens this)
           (temperature this) (vertexAI this) (isInitialized this) e.

(** Methods of the singleton: computations over the one shared object. *)
Definition M : Type -> Type := Async VertexAIConfig Event.

Definition this_ : M VertexAIConfig := Read (fun this => Ret this).
Definition assign (f : VertexAIConfig -> VertexAIConfig) : M unit := Write f (Ret tt).
Definition emit (ev : Event) : M unit := Emit ev (Ret tt).

(** [constructor()] *)
Definition constructor (w : World) : VertexAIConfig :=
  {| projectId := Js.str_or (env w "GOOGLE_CLOUD_PROJECT_ID") "dark-pipe-465302-g3";
     location := Js.str_or (env w "GOOGLE_CLOUD_LOCATION") "us-central1";
     model := Js.str_or (env w "VERTEX_AI_MODEL") "gemini-pro";
     maxTokens := Js.number_or (parseInt w (env w "VERTEX_AI_MAX_TOKENS")) (Js.Num 1000);
     temperature := Js.number_or (parseFloat w (env w "VERTEX_AI_TEMPERATURE")) (Js.Num (7 # 10));
     vertexAI := None;
     isInitialized := false;
     initError := None |}.

(** [getModel()] *)
Definition getModel : M GenerativeModel :=
  this <- this_ ;;
  if negb (isInitialized this) then
    Throw (Js.new_Error "Vertex AI not initialized. Call initialize() first.")
  else
    match vertexAI this with
    | None => Throw (Js.TypeError_read "null" "preview")   (* this.vertexAI is null *)
    | Some c =>
        Ret {| gm_client := c;
               gm_model := model this;
               gm_maxOutputTokens := maxTokens this;
               gm_temperature := temperature this |}
    end.

Definition testPrompt : string :=
  "Say " ++ Js.dq ++ "Hello from Vertex AI Gemini!" ++ Js.dq ++ " in one sentence.".

(** [await model.generateContent(prompt)]: the request goes out, the
    caller is suspended, and resumes with the result or the failure. *)
Definition generate (w : World) (m : GenerativeModel) (prompt : string)
  : M GenerateContentResult :=
  emit (EvGenerateContent m prompt) ;;
  await (lift (generateContent w m prompt)).

(** [(await result.response).text()] *)
Definition text_of (result : GenerateContentResult) : M string :=
  await (Ret tt) ;;
  lift (response_text result).

(** [async testConnection()] *)
Definition testConnection (w : World) : M string :=
  try_catch
    (model <- getModel ;;
     result <- generate w model testPrompt ;;
     text <- text_of result ;;
     Ret text)
    (fun error =>
       Throw (Js.new_Error ("Vertex AI connection test failed: "
                            ++ Js.template (Js.message error)))).

(** [async initialize()] *)
Definition initialize (w : World) : M unit :=
  try_catch
    (emit EvInitialize ;;
     match env w "GOOGLE_APPLICATION_CREDENTIALS" with
     | None | Some EmptyString =>                       (* !serviceAccountPath *)
         Throw (Js.new_Error "GOOGLE_APPLICATION_CREDENTIALS environment variable not set")
     | Some serviceAccountPath =>
         let fullPath := path_resolve w serviceAccountPath in
         emit (EvExistsSync fullPath) ;;
         if negb (fs_existsSync w fullPath) then
           Throw (Js.new_Error ("Service account file not found: " ++ fullPath))
         else
           this <- this_ ;;
           emit (EvNewVertexAI (projectId this) (location this)) ;;
           c <- lift (new_VertexAI w (projectId this) (location this)) ;;
           assign (set_vertexAI (Some c)) ;;
           await (testConnection w) ;;
           assign (set_isInitialized true)
     end)
    (fun error =>
       assign (set_initError (Some error)) ;;
       Throw error).

(** The object [getStatus()] returns. *)
Record ConfigView : Type := mkConfigView {
  cv_projectId : string;
  cv_location : string;
  cv_model : string;
  cv_maxTokens : Js.number;
  cv_temperature : Js.number
}.

Record Status : Type := mkStatus {
  initialized : bool;
  error : Js.value;                 (* a string or null *)
  config : ConfigView
}.

Definition status_of (this : VertexAIConfig) : Status :=
  {| initialized := isInitialized this;
     error := Js.str_or_null (match initError this with
                              | Some e => Js.message e      (* this.initError?.message *)
                              | None => None
                              end);
     config := {| cv_projectId := projectId this;
                  cv_location := location this;
                  cv_model := model this;
                  cv_maxTokens := maxTokens this;
                  cv_temperature := temperature this |} |}.

(** [getStatus()] *)
Definition getStatus : M Status :=
  this <- this_ ;;
  Ret (status_of this).

(** The object [checkPermissions()] resolves to. *)
Record Permissions : Type := mkPermissions {
  hasPermissions : bool;
  perm_error : Js.value;
  suggestions : option (list string)     (* the key is absent on success *)
}.

Definition permission_suggestions : list string :=
  [ "Ensure service account has " ++ Js.dq ++ "Vertex AI User" ++ Js.dq ++ " role";
    "Ensure service account has " ++ Js.dq ++ "AI Platform Developer" ++ Js.dq ++ " role";
    "Check if Vertex AI API is enabled in your project";
    "Verify the service account key file is valid" ].

(** [async checkPermissions()] *)
Definition checkPermissions (w : World) : M Permissions :=
  try_catch
    (model <- getModel ;;
     generate w model "Test permissions" ;;
     Ret {| hasPermissions := true; perm_error := Js.Null; suggestions := None |})
    (fun error =>
       Ret {| hasPermissions := false;
              perm_error := Js.of_opt_str (Js.message error);
              suggestions := Some permission_suggestions |}).

(* ================================================================= *)
(** ** [src/middleware/vertexaiMiddleware.js] *)

(** [req], as far as the gateway reads and extends it. *)
Record Request : Type := mkRequest {
  originalUrl : string;
  body : list (string * Js.value);              (* req.body, parsed JSON *)
  vertexAIModel : option GenerativeModel        (* req.vertexAIModel *)
}.

(** How a middleware or a route handler ends: it calls [next()], or it
    sends one JSON response ([res.status(c).json(b)]; [res.json(b)] sends
    with the default status 200). *)
Inductive Outcome : Type :=
| Next (req : Request)
| Json (statusCode : Z) (body : Js.value).

Definition config_value (cv : ConfigView) : Js.value :=
  Js.Obj [ ("projectId", Js.Str (cv_projectId cv));
           ("location", Js.Str (cv_location cv));
           ("model", Js.Str (cv_model cv));
           ("maxTokens", Js.Number (cv_maxTokens cv));
           ("temperature", Js.Number (cv_temperature cv)) ].

Definition status_value (st : Status) : Js.value :=
  Js.Obj [ ("initialized", Js.Bool (initialized st));
           ("error", error st);
           ("config", config_value (config st)) ].

Definition ensure_suggestions : list string :=
  [ "Check if service account file exists";
    "Verify Google Cloud project ID is correct";
    "Ensure Vertex AI API is enabled";
    "Check service account permissions" ].

(** The body of the 503 that [ensureVertexAI] sends. *)
Definition unavailable_body (error : Js.Error) (st : Status) : Js.value :=
  Js.Obj [ ("success", Js.Bool false);
           ("error", Js.Str "AI service unavailable");
           ("details", Js.of_opt_str (Js.message error));
           ("suggestions", Js.Arr (map Js.Str ensure_suggestions));
           ("status", status_value st) ].

(** [ensureVertexAI(req, res, next)] *)
Definition ensureVertexAI (w : World) (req : Request) : M Outcome :=
  try_catch
    (this <- this_ ;;
     (if negb (isInitialized this) then await (initialize w) else Ret tt) ;;
     Ret (Next req))
    (fun error =>
       st <- getStatus ;;
       Ret (Json 503 (unavailable_body error st))).

(** [addVertexAIModel(req, res, next)] *)
Definition addVertexAIModel (req : Request) : M Outcome :=
  try_catch
    (m <- getModel ;;
     Ret (Next {| originalUrl := originalUrl req;
                  body := body req;
                  vertexAIModel := Some m |}))
    (fun error =>
       Ret (Json 503 (Js.Obj [ ("success", Js.Bool false);
                               ("error", Js.Str "AI model unavailable");
                               ("details", Js.of_opt_str (Js.message error)) ]))).

(* ================================================================= *)
(** ** [src/middleware/errorHandler.js] *)

(** [res]: the status set so far and the bodies sent. *)
Record Response : Type := mkResponse {
  statusCode : Z;
  sent : list Js.value
}.

Definition res_status (c : Z) (res : Response) : Response :=
  {| statusCode := c; sent := sent res |}.

Definition res_json (b : Js.value) (res : Response) : Response :=
  {| statusCode := statusCode res; sent := (sent res ++ [b])%list |}.

(** [notFound(req, res, next)]: sets 404 and passes the error on. *)
Definition notFound (req : Request) (res : Response) : Response * Js.Error :=
  let error := Js.new_Error ("Not Found - " ++ originalUrl req) in
  (res_status 404 res, error).

(** [err.message && err.message.includes(needle)] *)
Definition message_includes (needle : string) (err : Js.Error) : bool :=
  match Js.message err with
  | Some m => Js.includes needle m
  | None => false
  end.

(** The status and the message [errorHandler] settles on, in the order of
    its three [if]s. *)
Definition classify (err : Js.Error) (res : Response) : Z * option string :=
  let statusCode := if (statusCode res =? 200)%Z then 500%Z else statusCode res in
  let message := Js.message err in
  (* Mongoose bad ObjectId *)
  let '(statusCode, message) :=
    if (Js.name err =? "CastError")
       && match Js.kind err with Some k => k =? "ObjectId" | None => false end
    then (404%Z, Some "Resource not found") else (statusCode, message) in
  (* Vertex AI specific errors *)
  let '(statusCode, message) :=
    if message_includes "Vertex AI" err
    then (503%Z, Some "AI service temporarily unavailable") else (statusCode, message) in
  (* Rate limit errors *)
  let '(statusCode, message) :=
    if message_includes "Too many requests" err
    then (429%Z, Some "Too many requests, please try again later") else (statusCode, message) in
  (statusCode, message).

(** [err.stack]: the header line, then the frames the engine recorded. *)
Definition stack_of (w : World) (err : Js.Error) : option string :=
  match Js.stack_header err with
  | Some header => Some (header ++ stack_frames w err)
  | None => None
  end.

(** [errorHandler(err, req, res, next)] *)
Definition errorHandler (w : World) (err : Js.Error) (res : Response) : Response :=
  let '(statusCode, message) := classify err res in
  res_json
    (Js.Obj [ ("success", Js.Bool false);
              ("error", Js.of_opt_str message);
              ("stack", match env w "NODE_ENV" with
                        | Some "production" => Js.Null
                        | _ => Js.of_opt_str (stack_of w err)
                        end);
              ("timestamp", Js.Str (now w)) ])
    (res_status statusCode res).

(* ================================================================= *)
(** ** The router: [routes/vertexai.js] *)

Definition lines (l : list string) : string := String.concat Js.nl l.

Definition decimal (n : nat) : string := NilZero.string_of_uint (Nat.to_uint n).

(** [v || d] *)
Definition value_or (v d : Js.value) : Js.value := if Js.truthy v then v else d.

Definition failure (error : string) : Js.value :=
  Js.Obj [ ("success", Js.Bool false); ("error", Js.Str error) ].

Definition failure_details (error : string) (e : Js.Error) : Js.value :=
  Js.Obj [ ("success", Js.Bool false); ("error", Js.Str error);
           ("details", Js.of_opt_str (Js.message e)) ].

Section Routes.

Variable w : World.

Let S (v : Js.value) : Js.Error + string := Js.to_string (number_toString w) v.

(** The three lines every operation shares:
    [result = await req.vertexAIModel.generateContent(prompt)],
    [response = await result.response], [response.text()]. *)
Definition ask (req : Request) (prompt : string) : M string :=
  match vertexAIModel req with
  | None => Throw (Js.TypeError_read "undefined" "generateContent")
  | Some m =>
      result <- generate w m prompt ;;
      text_of result
  end.

Definition confidence : Js.value := Js.Number (Js.Num (9 # 10)).

(** [router.get('/status', ...)] *)
Definition status_route (req : Request) : M Outcome :=
  try_catch
    (st <- getStatus ;;
     permissions <- await (checkPermissions w) ;;
     Ret (Json 200
            (Js.Obj [ ("success", Js.Bool true);
                      ("status", Js.Str "Vertex AI is running");
                      ("initialized", Js.Bool (initialized st));    (* ...status *)
                      ("error", error st);
                      ("config", config_value (config st));
                      ("permissions",
                       Js.Obj [ ("hasPermissions", Js.Bool (hasPermissions permissions));
                                ("error", perm_error permissions);
                                ("suggestions",
                                 match suggestions permissions with
                                 | Some l => Js.Arr (map Js.Str l)
                                 | None => Js.Undefined
                                 end) ]);
                      ("timestamp", Js.Str (now w)) ])))
    (fun e => Ret (Json 500 (failure_details "Status check failed" e))).

(** [router.get('/test', ...)] *)
Definition test_route (req : Request) : M Outcome :=
  try_catch
    (let prompt := "Say " ++ Js.dq ++ "Hello from Vertex AI Gemini!" ++ Js.dq
                   ++ " in Japanese and Indonesian." in
     text <- ask req prompt ;;
     Ret (Json 200
            (Js.Obj [ ("success", Js.Bool true);
                      ("message", Js.Str "Vertex AI connection successful");
                      ("response", Js.Str text);
                      ("timestamp", Js.Str (now w)) ])))
    (fun e => Ret (Json 500 (failure_details "Failed to connect to Vertex AI" e))).

(** The template literal of the translate route. *)
Definition translate_prompt (text targetLanguage : Js.value) : Js.Error + string :=
  Js.interpolate
    [ inr "Translate the following text to ";
      S targetLanguage;
      inr (lines [ ". Only provide the translation, no additional explanation:";
                   "";
                   "Text to translate: " ++ Js.dq ]);
      S text;
      inr (lines [ Js.dq; ""; "Translation:" ]) ].

(** [router.post('/translate', ...)] *)
Definition translate (req : Request) : M Outcome :=
  try_catch
    (let text := Js.get "text" (body req) in
     let targetLanguage := match Js.get "targetLanguage" (body req) with
                           | Js.Undefined => Js.Str "Indonesian"
                           | v => v
                           end in
     if negb (Js.truthy text) then
       Ret (Json 400 (failure "Text is required for translation"))
     else
       prompt <- lift (translate_prompt text targetLanguage) ;;
       answer <- ask req prompt ;;
       let translation := trim w answer in
       Ret (Json 200
              (Js.Obj [ ("success", Js.Bool true);
                        ("originalText", text);
                        ("translation", Js.Str translation);
                        ("targetLanguage", targetLanguage);
                        ("confidence", confidence);
                        ("timestamp", Js.Str (now w)) ])))
    (fun e => Ret (Json 500 (failure_details "Translation failed" e))).

(** [${context ? `<label>${context}` : ''}] *)
Definition context_line (label : string) (context : Js.value) : Js.Error + string :=
  if Js.truthy context then Js.interpolate [ inr label; S context ] else inr "".

(** The template literal of the explain-kanji route. *)
Definition explain_kanji_prompt (kanji context : Js.value) : Js.Error + string :=
  Js.interpolate
    [ inr ("Explain the kanji " ++ Js.dq);
      S kanji;
      inr (lines [ Js.dq ++ " in Indonesian language. Include the following information:";
                   "";
                   "1. Arti dan makna kanji";
                   "2. Cara baca (onyomi dan kunyomi) ";
                   "3. Penggunaan dalam kehidupan sehari-hari";
                   "4. Contoh kata yang menggunakan kanji ini";
                   "5. Sejarah atau asal-usul kanji (jika relevan)";
                   "";
                   "" ]);
      context_line "Additional context: " context;
      inr (lines [ "";
                   "";
                   "Please provide a comprehensive but concise explanation in Indonesian:" ]) ].

(** [router.post('/explain-kanji', ...)] *)
Definition explain_kanji (req : Request) : M Outcome :=
  try_catch
    (let kanji := Js.get "kanji" (body req) in
     let context := Js.get "context" (body req) in
     if negb (Js.truthy kanji) then
       Ret (Json 400 (failure "Kanji character is required"))
     else
       prompt <- lift (explain_kanji_prompt kanji context) ;;
       answer <- ask req prompt ;;
       let explanation := trim w answer in
       Ret (Json 200
              (Js.Obj [ ("success", Js.Bool true);
                        ("kanji", kanji);
                        ("explanation", Js.Str explanation);
                        ("confidence", confidence);
                        ("timestamp", Js.Str (now w)) ])))
    (fun e => Ret (Json 500 (failure_details "Kanji explanation failed" e))).

(** [examples.map((ex, i) => `${i + 1}. ${ex}`)] *)
Definition numbered (l : list Js.value) : list (Js.Error + string) :=
  map (fun '(i, ex) => Js.interpolate [ inr (decimal (i + 1) ++ ". "); S ex ])
      (combine (seq 0 (length l)) l).

(** [examples && examples.length > 0 ? `...${examples.map(...).join('\n')}` : ''].
    Only an array has [map]; a string or an object with a positive
    [length] makes the call throw. *)
Definition examplesText (examples : Js.value) : Js.Error + string :=
  if negb (Js.truthy examples) then inr ""
  else match examples with
       | Js.Arr [] => inr ""
       | Js.Arr l =>
           match Js.all_of (numbered l) with
           | inl e => inl e
           | inr numbered_lines =>
               inr (Js.nl ++ Js.nl ++ "Contoh kalimat:" ++ Js.nl ++ lines numbered_lines)
           end
       | Js.Str _ => inl (Js.TypeError_call "examples.map")
       | Js.Obj fields =>
           if gt_zero w (Js.get "length" fields)
           then inl (Js.TypeError_call "examples.map") else inr ""
       | _ => inr ""
       end.

(** The template literal of the explain-grammar route. *)
Definition explain_grammar_prompt (grammar : Js.value) (examplesText : string)
  (context : Js.value) : Js.Error + string :=
  Js.interpolate
    [ inr ("Jelaskan pola tata bahasa Jepang " ++ Js.dq);
      S grammar;
      inr (lines [ Js.dq ++ " dalam bahasa Indonesia. Sertakan informasi berikut:";
                   "";
                   "1. Struktur dan rumus tata bahasa";
                   "2. Kapan dan bagaimana menggunakannya";
                   "3. Nuansa makna yang terkandung";
                   "4. Perbedaan dengan pola tata bahasa serupa (jika ada)";
                   "5. Tips untuk mengingat dan menggunakan pola ini";
                   "";
                   examplesText;
                   "";
                   "" ]);
      context_line "Konteks tambahan: " context;
      inr (lines [ "";
                   "";
                   "Berikan penjelasan yang komprehensif namun mudah dipahami dalam bahasa Indonesia:" ]) ].

(** [router.post('/explain-grammar', ...)] *)
Definition explain_grammar (req : Request) : M Outcome :=
  try_catch
    (let grammar := Js.get "grammar" (body req) in
     let examples := Js.get "examples" (body req) in
     let context := Js.get "context" (body req) in
     if negb (Js.truthy grammar) then
       Ret (Json 400 (failure "Grammar pattern is required"))
     else
       examplesText <- lift (examplesText examples) ;;
       prompt <- lift (explain_grammar_prompt grammar examplesText context) ;;
       answer <- ask req prompt ;;
       let explanation := trim w answer in
       Ret (Json 200
              (Js.Obj [ ("success", Js.Bool true);
                        ("grammar", grammar);
                        ("explanation", Js.Str explanation);
                        ("examples", value_or examples (Js.Arr []));
                        ("confidence", confidence);
                        ("timestamp", Js.Str (now w)) ])))
    (fun e => Ret (Json 500 (failure_details "Grammar explanation failed" e))).

(** The template literal of the chat route. *)
Definition chat_prompt (message context : Js.value) : Js.Error + string :=
  Js.interpolate
    [ inr (lines [ "You are a helpful Japanese language learning assistant. Respond in Indonesian language.";
                   "";
                   "" ]);
      context_line "Context: " context;
      inr (lines [ ""; ""; "User question: " ]);
      S message;
      inr (lines [ ""; ""; "Please provide a helpful and educational response:" ]) ].

(** [router.post('/chat', ...)] *)
Definition chat (req : Request) : M Outcome :=
  try_catch
    (let message := Js.get "message" (body req) in
     let context := Js.get "context" (body req) in
     if negb (Js.truthy message) then
       Ret (Json 400 (failure "Message is required"))
     else
       prompt <- lift (chat_prompt message context) ;;
       answer <- ask req prompt ;;
       let aiResponse := trim w answer in
       Ret (Json 200
              (Js.Obj [ ("success", Js.Bool true);
                        ("userMessage", message);
                        ("aiResponse", Js.Str aiResponse);
                        ("confidence", confidence);
                        ("timestamp", Js.Str (now w)) ])))
    (fun e => Ret (Json 500 (failure_details "Chat response failed" e))).

(** The template literal of the generate-examples route. *)
Definition generate_examples_prompt (word reading meaning : Js.value) : Js.Error + string :=
  Js.interpolate
    [ inr ("Generate 3 example sentences using the Japanese word " ++ Js.dq);
      S word;
      inr (Js.dq ++ " (reading: ");
      S (value_or reading (Js.Str "unknown"));
      inr ", meaning: ";
      S (value_or meaning (Js.Str "unknown"));
      inr (lines [ ").";
                   "";
                   "For each example, provide:";
                   "1. Japanese sentence";
                   "2. Romaji reading";
                   "3. Indonesian translation";
                   "";
                   "Format the response as JSON array with objects containing: sentence, reading, meaning";
                   "";
                   "Examples:" ]) ].

(** [router.post('/generate-examples', ...)] *)
Definition generate_examples (req : Request) : M Outcome :=
  try_catch
    (let word := Js.get "word" (body req) in
     let reading := Js.get "reading" (body req) in
     let meaning := Js.get "meaning" (body req) in
     if negb (Js.truthy word) then
       Ret (Json 400 (failure "Word is required"))
     else
       prompt <- lift (generate_examples_prompt word reading meaning) ;;
       answer <- ask req prompt ;;
       let examples := trim w answer in
       Ret (Json 200
              (Js.Obj [ ("success", Js.Bool true);
                        ("word", word);
                        ("examples", Js.Str examples);
                        ("confidence", confidence);
                        ("timestamp", Js.Str (now w)) ])))
    (fun e => Ret (Json 500 (failure_details "Example generation failed" e))).

(** The templated operations and the field each one requires. *)
Inductive Operation : Type :=
| Translate | ExplainKanji | ExplainGrammar | Chat | GenerateExamples.

Definition required_field (op : Operation) : string :=
  match op with
  | Translate => "text"
  | ExplainKanji => "kanji"
  | ExplainGrammar => "grammar"
  | Chat => "message"
  | GenerateExamples => "word"
  end.

Definition handler (op : Operation) : Request -> M Outcome :=
  match op with
  | Translate => translate
  | ExplainKanji => explain_kanji
  | ExplainGrammar => explain_grammar
  | Chat => chat
  | GenerateExamples => generate_examples
  end.

(** [router.use(mw)]: the rest of the stack runs when [mw] calls [next()]. *)
Definition use (mw : Request -> M Outcome) (rest : Request -> M Outcome)
  : Request -> M Outcome :=
  fun req =>
    o <- mw req ;;
    match o with
    | Next req' => rest req'
    | Json _ _ => Ret o
    end.

(** One inbound call of an operation, through the router:
    [router.use(ensureVertexAI); router.use(addVertexAIModel);] then the
    route. *)
Definition invoke (op : Operation) : Request -> M Outcome :=
  use (ensureVertexAI w) (use addVertexAIModel (handler op)).

End Routes.

(* ================================================================= *)
(** ** The event loop: calls in flight on the one shared object *)

Module EventLoop.

(** The singleton, the calls in flight (each at its suspension point, or
    not yet entered, or finished) and the effects so far, each tagged
    with the call that made it. *)
Record Loop (A : Type) : Type := mkLoop {
  heap : VertexAIConfig;
  tasks : list (M A);
  log : list (nat * Event)
}.

Arguments mkLoop {A}.

Fixpoint replace {A} (i : nat) (x : A) (l : list A) : list A :=
  match l, i with
  | [], _ => []
  | _ :: rest, O => x :: rest
  | y :: rest, S j => y :: replace j x rest
  end.

(** One turn of the loop: call [i] runs from where it is to its next
    [await] (or to its end); nothing else runs meanwhile. *)
Definition turn {A} (i : nat) (l : Loop A) : Loop A :=
  match nth_error (tasks l) i with
  | None => l
  | Some m =>
      let '(m', h', evs) := advance m (heap l) in
      {| heap := h';
         tasks := replace i m' (tasks l);
         log := (log l ++ map (pair i) evs)%list |}
  end.

(** A schedule names the call that runs in each successive turn. *)
Definition exec {A} (schedule : list nat) (l : Loop A) : Loop A :=
  fold_left (fun l i => turn i l) schedule l.

(** [spawn ms h]: the calls [ms] are issued on the object [h]; none has
    run yet. *)
Definition spawn {A} (ms : list (M A)) (h : VertexAIConfig) : Loop A :=
  {| heap := h; tasks := ms; log := [] |}.


(** The handshakes started: one per entry into [initialize()]. *)
Definition handshakes {A} (l : Loop A) : nat :=
  length (filter (fun '(_, ev) => match ev with EvInitialize => true | _ => false end) (log l)).


End EventLoop.

(** [n] calls one after the other, each run to completion. *)
Fixpoint calls {A} (n : nat) (m : M A) : M unit :=
  match n with
  | O => Ret tt
  | S n' => m ;; calls n' m
  end.

(* ================================================================= *)
(** ** Sample worlds and objects *)

Module Sample.

Definition resolve (p : string) : string :=
  if prefix "/" p then p else "/srv/backend/" ++ p.

(** Credentials in place, the remote model answers. *)
Definition world_ok : World :=
  {| env := fun k => if k =? "GOOGLE_APPLICATION_CREDENTIALS"
                     then Some "service-account.json" else None;
     parseInt := fun _ => Js.NaN;
     parseFloat := fun _ => Js.NaN;
     number_toString := fun _ => "NaN";
     stack_frames := fun _ => Js.nl ++ "    at Layer.handle (router/layer.js:95:5)";
     gt_zero := fun _ => false;
     trim := fun s => s;
     now := "2025-01-01T00:00:00.000Z";
     path_resolve := resolve;
     fs_existsSync := fun p => p =? "/srv/backend/service-account.json";
     new_VertexAI := fun p l => inr (mkClient p l);
     generateContent := fun _ _ => inr (mkResult (inr "Hello from Vertex AI Gemini!")) |}.

(** The same, with the credentials file missing. *)
Definition world_missing : World :=
  {| env := env world_ok;
     parseInt := parseInt world_ok;
     parseFloat := parseFloat world_ok;
     number_toString := number_toString world_ok;
     stack_frames := stack_frames world_ok;
     gt_zero := gt_zero world_ok;
     trim := trim world_ok;
     now := now world_ok;
     path_resolve := path_resolve world_ok;
     fs_existsSync := fun _ => false;
     new_VertexAI := new_VertexAI world_ok;
     generateContent := generateContent world_ok |}.

(** The same as [world_ok], with the remote model refusing the call. *)
Definition world_denied : World :=
  {| env := env world_ok;
     parseInt := parseInt world_ok;
     parseFloat := parseFloat world_ok;
     number_toString := number_toString world_ok;
     stack_frames := stack_frames world_ok;
     gt_zero := gt_zero world_ok;
     trim := trim world_ok;
     now := now world_ok;
     path_resolve := path_resolve world_ok;
     fs_existsSync := fs_existsSync world_ok;
     new_VertexAI := new_VertexAI world_ok;
     generateContent := fun _ _ => inl (Js.new_Error "Permission denied") |}.

Definition client : Client := mkClient "dark-pipe-465302-g3" "us-central1".

(** The singleton as the module creates it. *)
Definition fresh : VertexAIConfig := constructor world_ok.

(** An object whose flag says initialised and whose handle is stored. *)
Definition ready : VertexAIConfig :=
  set_isInitialized true (set_vertexAI (Some client) fresh).

(** The same, with an error recorded by an earlier attempt. *)
Definition ready_stale : VertexAIConfig :=
  set_initError (Some (Js.new_Error "Service account file not found: /srv/backend/service-account.json"))
                ready.

(** A translate request without its [text]. *)
Definition no_text : Request :=
  {| originalUrl := "/api/vertexai/translate";
     body := [ ("targetLanguage", Js.Str "Indonesian") ];
     vertexAIModel := None |}.

Definition hello : Request :=
  {| originalUrl := "/api/vertexai/translate";
     body := [ ("text", Js.Str "Hello world"); ("targetLanguage", Js.Str "Indonesian") ];
     vertexAIModel := None |}.

(** An error whose message carries both markers [errorHandler] looks for. *)
Definition both_markers : Js.Error :=
  Js.new_Error "Vertex AI quota: Too many requests".

End Sample.

Unset Implicit Arguments.
Local Open Scope nat_scope.

(* ================================================================= *)
(** ** What an initialisation attempt does from an uninitialised object *)

Definition not_initialized : Js.Error :=
  Js.new_Error "Vertex AI not initialized. Call initialize() first.".

Definition test_failed : Js.Error :=
  Js.new_Error "Vertex AI connection test failed: Vertex AI not initialized. Call initialize() first.".

(** The error, the object and the effects an attempt ends with when it
    starts with [isInitialized] false: the first failing step decides. *)
Definition failed_attempt (w : World) (h : VertexAIConfig)
  : Js.Error * VertexAIConfig * list Event :=
  match env w "GOOGLE_APPLICATION_CREDENTIALS" with
  | None | Some EmptyString =>
      let e := Js.new_Error "GOOGLE_APPLICATION_CREDENTIALS environment variable not set" in
      (e, set_initError (Some e) h, [EvInitialize])
  | Some p =>
      let fullPath := path_resolve w p in
      if fs_existsSync w fullPath then
        match new_VertexAI w (projectId h) (location h) with
        | inl e =>
            (e, set_initError (Some e) h,
             [EvInitialize; EvExistsSync fullPath; EvNewVertexAI (projectId h) (location h)])
        | inr c =>
            (test_failed, set_initError (Some test_failed) (set_vertexAI (Some c) h),
             [EvInitialize; EvExistsSync fullPath; EvNewVertexAI (projectId h) (location h)])
        end
      else
        let e := Js.new_Error ("Service account file not found: " ++ fullPath) in
        (e, set_initError (Some e) h, [EvInitialize; EvExistsSync fullPath])
  end.


(** The invariant as the specification words it: the handle is present
    exactly when the flag says initialised. *)
Definition handle_iff_ready (h : VertexAIConfig) : Prop :=
  vertexAI h <> None <-> isInitialized h = true.

(** The half of it that the code maintains. *)
Definition ready_has_handle (h : VertexAIConfig) : Prop :=
  isInitialized h = true -> vertexAI h <> None.

(** The operations of the connection manager. *)
Inductive ManagerOp : Type :=
| OpInitialize
| OpTestConnection
| OpGetModel
| OpGetStatus
| OpCheckPermissions
| OpEnsureVertexAI (req : Request)
| OpAddVertexAIModel (req : Request).

(** The object after an operation has run to completion. *)
Definition after (w : World) (op : ManagerOp) (h : VertexAIConfig) : VertexAIConfig :=
  match op with
  | OpInitialize => heap_after (initialize w) h
  | OpTestConnection => heap_after (testConnection w) h
  | OpGetModel => heap_after getModel h
  | OpGetStatus => heap_after getStatus h
  | OpCheckPermissions => heap_after (checkPermissions w) h
  | OpEnsureVertexAI req => heap_after (ensureVertexAI w req) h
  | OpAddVertexAIModel req => heap_after (addVertexAIModel req) h
  end.

(** The 400 message of each operation. *)
Definition required_message (op : Operation) : string :=
  match op with
  | Translate => "Text is required for translation"
  | ExplainKanji => "Kanji character is required"
  | ExplainGrammar => "Grammar pattern is required"
  | Chat => "Message is required"
  | GenerateExamples => "Word is required"
  end.

(** The object left by a first call made while the credentials file is
    missing: the state the specification calls Failed. *)
Definition failed : VertexAIConfig :=
  heap_after (ensureVertexAI Sample.world_missing Sample.hello) Sample.fresh.

(* ----------------------------------------------------------------- *)
(** *** Where a call of [ensureVertexAI] can be, between two turns *)

Module Phases.

(** Each call runs in the world of its own caller. *)
Inductive Phase : Type :=
| Fresh (w : World) (req : Request)   (* issued, not yet entered *)
| TestRejected (w : World)            (* in initialize, at [await this.testConnection()],
                                         the promise rejected *)
| InitializeRejected (w : World)      (* in ensureVertexAI, at
                                         [await vertexAIConfig.initialize()], the promise
                                         rejected *)
| Finished (w : World) (st : Status). (* the response is sent; [st] is the status it
                                         embeds *)

(** What remains of [ensureVertexAI] once [initialize()] has rejected
    with [e]: its catch block. *)
Definition ensure_catch (e : Js.Error) : M Outcome :=
  Read (fun this => Ret (Json 503 (unavailable_body e (status_of this)))).

(** What remains once [testConnection()] has rejected with [e]: the
    catch block of [initialize], the next suspension, then
    [ensure_catch]. *)
Definition initialize_catch (e : Js.Error) : M Outcome :=
  Write (set_initError (Some e)) (Await (ensure_catch e)).

(** The first turn of a call entered with the flag false: what remains
    of it, the object and the effects. *)
Definition entered (w : World) (h : VertexAIConfig)
  : M Outcome * VertexAIConfig * list Event :=
  match env w "GOOGLE_APPLICATION_CREDENTIALS" with
  | None | Some EmptyString =>
      let e := Js.new_Error "GOOGLE_APPLICATION_CREDENTIALS environment variable not set" in
      (ensure_catch e, set_initError (Some e) h, [EvInitialize])
  | Some p =>
      let fullPath := path_resolve w p in
      if fs_existsSync w fullPath then
        match new_VertexAI w (projectId h) (location h) with
        | inl e =>
            (ensure_catch e, set_initError (Some e) h,
             [EvInitialize; EvExistsSync fullPath;
              EvNewVertexAI (projectId h) (location h)])
        | inr c =>
            (initialize_catch test_failed, set_vertexAI (Some c) h,
             [EvInitialize; EvExistsSync fullPath;
              EvNewVertexAI (projectId h) (location h)])
        end
      else
        let e := Js.new_Error ("Service account file not found: " ++ fullPath) in
        (ensure_catch e, set_initError (Some e) h, [EvInitialize; EvExistsSync fullPath])
  end.

Section Programs.

Variable h0 : VertexAIConfig.   (* the object when the calls are issued *)

(** The error the attempt of a caller in world [w] ends with. *)
Definition the_error (w : World) : Js.Error := fst (fst (failed_attempt w h0)).

Definition program (ph : Phase) : M Outcome :=
  match ph with
  | Fresh w req => ensureVertexAI w req
  | TestRejected w => initialize_catch (the_error w)
  | InitializeRejected w => ensure_catch (the_error w)
  | Finished w st => Ret (Json 503 (unavailable_body (the_error w) st))
  end.

Definition world_of (ph : Phase) : World :=
  match ph with
  | Fresh w _ | TestRejected w | InitializeRejected w | Finished w _ => w
  end.

Definition started (ph : Phase) : bool :=
  match ph with
  | Fresh _ _ => false
  | _ => true
  end.

Definition same_config (h : VertexAIConfig) : Prop :=
  config (status_of h) = config (status_of h0).

(** How far a call has come. *)
Definition age (ph : Phase) : nat :=
  match ph with
  | Fresh _ _ => 0
  | TestRejected _ => 1
  | InitializeRejected _ => 2
  | Finished _ _ => 3
  end.

(** What holds of the loop after any number of turns, the calls being
    in the phases [phases]. *)
Definition invariant_at (phases : list Phase) (l : EventLoop.Loop Outcome) : Prop :=
  isInitialized (EventLoop.heap l) = false
  /\ same_config (EventLoop.heap l)
  /\ EventLoop.tasks l = map program phases
  /\ EventLoop.handshakes l = length (filter started phases).

(** One turn of a call takes it one phase further, at least, in its own
    world; the other calls stay where they are. *)
Definition advanced (i : nat) (before after : list Phase) : Prop :=
  length after = length before
  /\ forall j ph, nth_error before j = Some ph ->
       exists ph', nth_error after j = Some ph'
                   /\ world_of ph' = world_of ph
                   /\ age ph <= age ph'
                   /\ (j = i -> Nat.min 3 (S (age ph)) <= age ph').

End Programs.

End Phases.


(** What [checkPermissions()] resolves to when its body throws [e], and
    when it does not. *)
Definition denied (e : Js.Error) : Permissions :=
  {| hasPermissions := false;
     perm_error := Js.of_opt_str (Js.message e);
     suggestions := Some permission_suggestions |}.

Definition granted : Permissions :=
  {| hasPermissions := true; perm_error := Js.Null; suggestions := None |}.

(** The calls of several callers, each in its own world. *)
Definition ensure_calls (calls : list (World * Request)) : list (M Outcome) :=
  map (fun c => ensureVertexAI (fst c) (snd c)) calls.

(* ================================================================= *)
(** ** [src/server.js] *)

(** [app.get('/health', ...)]; [uptime] is what [process.uptime()]
    returns. *)
Definition health (w : World) (uptime : Js.number) : M Outcome :=
  vertexAIStatus <- getStatus ;;
  Ret (Json 200
         (Js.Obj [ ("status", Js.Str "OK");
                   ("services",
                    Js.Obj [ ("server", Js.Str "running");
                             ("vertexAI",
                              Js.Str (if initialized vertexAIStatus
                                      then "ready" else "not initialized")) ]);
                   ("timestamp", Js.Str (now w));
                   ("uptime", Js.Number uptime);
                   ("environment", Js.Str (Js.str_or (env w "NODE_ENV") "development"));
                   ("vertexAI", status_value vertexAIStatus) ])).

(** The callback of [app.listen]: it initialises, and only logs when that
    fails. *)
Definition startup (w : World) : M unit :=
  try_catch
    (await (initialize w))
    (fun error => Ret tt).

(** The options given to [rateLimit]. *)
Record RateLimitOptions : Type := mkRateLimit {
  windowMs : Js.number;
  max : Js.number;
  limit_message : Js.value
}.

Definition limiter (w : World) : RateLimitOptions :=
  {| windowMs := Js.number_or (parseInt w (env w "RATE_LIMIT_WINDOW_MS"))
                              (Js.Num (15 * 60 * 1000));
     max := Js.number_or (parseInt w (env w "RATE_LIMIT_MAX_REQUESTS")) (Js.Num 100);
     limit_message :=
       Js.Obj [ ("error", Js.Str "Too many requests from this IP, please try again later.") ] |}.

(* ================================================================= *)
(** ** The test script ([test-vertex-ai.js]) *)

Definition requiredEnvVars : list string :=
  [ "GOOGLE_CLOUD_PROJECT_ID"; "GOOGLE_CLOUD_LOCATION"; "GOOGLE_APPLICATION_CREDENTIALS" ].

(** [requiredEnvVars.filter(envVar => !process.env[envVar])] *)
Definition missing (w : World) : list string :=
  filter (fun envVar => negb (Js.str_truthy (env w envVar))) requiredEnvVars.

(** [async testConfiguration()] *)
Definition testConfiguration (w : World) : M bool :=
  if (0 <? length (missing w))%nat then Ret false
  else
    match env w "GOOGLE_APPLICATION_CREDENTIALS" with
    | None =>                                   (* path.resolve(undefined) *)
        Throw (Js.new_TypeError
                 ("The " ++ Js.dq ++ "paths[0]" ++ Js.dq
                  ++ " argument must be of type string. Received undefined"))
    | Some p =>
        let serviceAccountPath := path_resolve w p in
        emit (EvExistsSync serviceAccountPath) ;;
        if negb (fs_existsSync w serviceAccountPath) then Ret false
        else Ret true
    end.

(** [async testVertexAIInitialization()] *)
Definition testVertexAIInitialization (w : World) : M bool :=
  try_catch
    (await (initialize w) ;;
     Ret true)
    (fun error => Ret false).

(** The body the three generation tests share: [getModel()], one call,
    its response, its text. *)
Definition generation_test (w : World) (prompt : string) : M bool :=
  try_catch
    (model <- getModel ;;
     result <- generate w model prompt ;;
     text <- text_of result ;;
     Ret true)
    (fun error => Ret false).

(** [async testBasicGeneration()] *)
Definition testBasicGeneration (w : World) : M bool :=
  generation_test w ("Say " ++ Js.dq ++ "Hello from Vertex AI Gemini!" ++ Js.dq
                     ++ " in one sentence.").

(** [async testTranslation()] *)
Definition testTranslation (w : World) : M bool :=
  generation_test w ("Translate " ++ Js.dq ++ "Hello world" ++ Js.dq
                     ++ " to Indonesian. Only provide the translation:").

(** [async testKanjiExplanation()] *)
Definition testKanjiExplanation (w : World) : M bool :=
  generation_test w ("Explain the kanji " ++ Js.dq ++ "学" ++ Js.dq
                     ++ " (study/learn) in Indonesian in 2-3 sentences:").

(** [async testPermissions()] *)
Definition testPermissions (w : World) : M bool :=
  try_catch
    (permissions <- await (checkPermissions w) ;;
     if hasPermissions permissions then Ret true
     else
       match suggestions permissions with
       | Some _ => Ret false                     (* suggestions.forEach(...) *)
       | None => Throw (Js.TypeError_read "undefined" "forEach")
       end)
    (fun error => Ret false).

(** The loop of [runAllTests]: a test that returns a truthy result is
    counted as passed, one that returns a falsy result or throws as
    failed. *)
Fixpoint run_tests (tests : list (M bool)) (passed failed : nat) : M (nat * nat) :=
  match tests with
  | [] => Ret (passed, failed)
  | test :: rest =>
      counts <- try_catch
                  (result <- await test ;;
                   if (result : bool) then Ret (S passed, failed)
                   else Ret (passed, S failed))
                  (fun error => Ret (passed, S failed)) ;;
      run_tests rest (fst counts) (snd counts)
  end.

(** The tests in the order [runAllTests] lists them.  [testAPIEndpoints]
    talks to the running server over HTTP; it is taken as given. *)
Definition tests (w : World) (testAPIEndpoints : M bool) : list (M bool) :=
  [ testConfiguration w;
    testVertexAIInitialization w;
    testBasicGeneration w;
    testTranslation w;
    testKanjiExplanation w;
    testPermissions w;
    testAPIEndpoints ].

(** [process.exit(ok ? 0 : 1)] *)
Definition exit_code (ok : bool) : nat := if ok then 0 else 1.

(** [async runAllTests()], up to its [process.exit]: the exit code. *)
Definition runAllTests (w : World) (testAPIEndpoints : M bool) : M nat :=
  counts <- run_tests (tests w testAPIEndpoints) 0 0 ;;
  Ret (exit_code (snd counts =? 0)%nat).

(* ================================================================= *)
(** ** Names for what the routes answer *)

(** The [error] of the 500 each operation sends when its body throws. *)
Definition failure_label (op : Operation) : string :=
  match op with
  | Translate => "Translation failed"
  | ExplainKanji => "Kanji explanation failed"
  | ExplainGrammar => "Grammar explanation failed"
  | Chat => "Chat response failed"
  | GenerateExamples => "Example generation failed"
  end.

(** The key under which each operation returns the model's text. *)
Definition answer_key (op : Operation) : string :=
  match op with
  | Translate => "translation"
  | ExplainKanji => "explanation"
  | ExplainGrammar => "explanation"
  | Chat => "aiResponse"
  | GenerateExamples => "examples"
  end.

Definition is_initialize (ev : Event) : bool :=
  match ev with
  | EvInitialize => true
  | _ => false
  end.

Definition is_generate (ev : Event) : bool :=
  match ev with
  | EvGenerateContent _ _ => true
  | _ => false
  end.


Definition field_of (key : string) (b : Js.value) : Js.value :=
  match b with
  | Js.Obj fields => Js.get key fields
  | _ => Js.Undefined
  end.

(** The characters of a string. *)
Fixpoint chars (s : string) : list ascii :=
  match s with
  | EmptyString => []
  | String c rest => c :: chars rest
  end.

(** The prompt of each operation, as its template literal builds it from
    the body of the request; [inl] when building it throws. *)
Definition prompt_of (w : World) (op : Operation) (b : list (string * Js.value))
  : Js.Error + string :=
  match op with
  | Translate =>
      translate_prompt w (Js.get "text" b)
                       (match Js.get "targetLanguage" b with
                        | Js.Undefined => Js.Str "Indonesian"
                        | v => v
                        end)
  | ExplainKanji => explain_kanji_prompt w (Js.get "kanji" b) (Js.get "context" b)
  | ExplainGrammar =>
      match examplesText w (Js.get "examples" b) with
      | inl e => inl e
      | inr text => explain_grammar_prompt w (Js.get "grammar" b) text (Js.get "context" b)
      end
  | Chat => chat_prompt w (Js.get "message" b) (Js.get "context" b)
  | GenerateExamples =>
      generate_examples_prompt w (Js.get "word" b) (Js.get "reading" b) (Js.get "meaning" b)
  end.

(** What a route does once its required field is there.  When building
    the prompt throws, the answer is the operation's 500 and no call is
    made.  Otherwise one remote call is made, with that prompt, and the
    answer depends only on how the call ends. *)
Definition route_outcome (w : World) (op : Operation) (req : Request) (m : GenerativeModel)
  (r : (Js.Error + Outcome) * VertexAIConfig * list Event) (h : VertexAIConfig) : Prop :=
  match prompt_of w op (body req) with
  | inl e => r = (inr (Json 500 (failure_details (failure_label op) e)), h, [])
  | inr prompt =>
      match match generateContent w m prompt with
            | inl e => inl e
            | inr res => response_text res
            end with
      | inl e =>
          r = (inr (Json 500 (failure_details (failure_label op) e)), h,
               [EvGenerateContent m prompt])
      | inr text =>
          exists fields,
            r = (inr (Json 200 (Js.Obj fields)), h, [EvGenerateContent m prompt])
            /\ Js.get "success" fields = Js.Bool true
            /\ Js.get (answer_key op) fields = Js.Str (trim w text)
            /\ Js.get "confidence" fields = Js.Number (Js.Num (9 # 10))
            /\ Js.get "timestamp" fields = Js.Str (now w)
      end
  end.

(** A route as the router mounts it: behind [router.use(ensureVertexAI)]
    and [router.use(addVertexAIModel)]. *)
Definition mounted (w : World) (route : Request -> M Outcome) : Request -> M Outcome :=
  use (ensureVertexAI w) (use addVertexAIModel route).

(** A URL under the router that none of its routes matches: the two
    middlewares run, then the request leaves the router. *)
Definition no_route (req : Request) : M Outcome := Ret (Next req).

(** What makes [testConnection()] fail, if anything does: the error its
    [catch] receives. *)
Definition connection_test_cause (w : World) (h : VertexAIConfig) : option Js.Error :=
  if negb (isInitialized h) then
    Some (Js.new_Error "Vertex AI not initialized. Call initialize() first.")
  else
    match vertexAI h with
    | None => Some (Js.TypeError_read "null" "preview")
    | Some c =>
        match generateContent w (mkModel c (model h) (maxTokens h) (temperature h))
                              testPrompt with
        | inl e => Some e
        | inr res =>
            match response_text res with
            | inl e => Some e
            | inr _ => None
            end
        end
    end.

(** What each test of a list returns or throws, the tests being run one
    after the other from the object [h]. *)
Fixpoint outcomes (tests : list (M bool)) (h : VertexAIConfig) : list (Js.Error + bool) :=
  match tests with
  | [] => []
  | test :: rest => result test h :: outcomes rest (heap_after test h)
  end.

(** A test passes when it returns [true]; one that returns [false] or
    throws does not. *)
Definition is_pass (r : Js.Error + bool) : bool :=
  match r with
  | inr true => true
  | _ => false
  end.

(** [req] once [addVertexAIModel] has attached the model built from the
    object [h] and the handle [c]. *)
Definition with_model (c : Client) (h : VertexAIConfig) (req : Request) : Request :=
  {| originalUrl := originalUrl req;
     body := body req;
     vertexAIModel := Some (mkModel c (model h) (maxTokens h) (temperature h)) |}.

(** [req] with [targetLanguage: "Indonesian"] written out in its body. *)
Definition with_default_language (req : Request) : Request :=
  {| originalUrl := originalUrl req;
     body := ("targetLanguage", Js.Str "Indonesian") :: body req;
     vertexAIModel := vertexAIModel req |}.


(** An explain-grammar request whose [examples] is a string. *)
Definition grammar_with_string_examples : Request :=
  {| originalUrl := "/api/vertexai/explain-grammar";
     body := [ ("grammar", Js.Str "desu"); ("examples", Js.Str "kore wa hon desu") ];
     vertexAIModel := None |}.

(** The object after a sequence of operations, each in the world of its
    time. *)
Fixpoint after_all (steps : list (World * ManagerOp)) (h : VertexAIConfig) : VertexAIConfig :=
  match steps with
  | [] => h
  | (w, op) :: rest => after_all rest (after w op h)
  end.

(** A world in which every numeric variable is set to "0". *)
Definition world_zero : World :=
  {| env := fun k => if (k =? "GOOGLE_CLOUD_PROJECT_ID")%string then Some "" else Some "0";
     parseInt := fun _ => Js.Num 0;
     parseFloat := fun _ => Js.Num 0;
     number_toString := number_toString Sample.world_ok;
     stack_frames := stack_frames Sample.world_ok;
     gt_zero := gt_zero Sample.world_ok;
     trim := trim Sample.world_ok;
     now := now Sample.world_ok;
     path_resolve := path_resolve Sample.world_ok;
     fs_existsSync := fs_existsSync Sample.world_ok;
     new_VertexAI := new_VertexAI Sample.world_ok;
     generateContent := generateContent Sample.world_ok |}.

(** A world without the credentials variable. *)
Definition world_unset : World :=
  {| env := fun _ => None;
     parseInt := parseInt Sample.world_ok;
     parseFloat := parseFloat Sample.world_ok;
     number_toString := number_toString Sample.world_ok;
     stack_frames := stack_frames Sample.world_ok;
     gt_zero := gt_zero Sample.world_ok;
     trim := trim Sample.world_ok;
     now := now Sample.world_ok;
     path_resolve := path_resolve Sample.world_ok;
     fs_existsSync := fs_existsSync Sample.world_ok;
     new_VertexAI := new_VertexAI Sample.world_ok;
     generateContent := generateContent Sample.world_ok |}.

(** A world with the three required variables set and the credentials
    file in place. *)
Definition world_configured : World :=
  {| env := fun k =>
              if (k =? "GOOGLE_APPLICATION_CREDENTIALS")%string then Some "service-account.json"
              else if (k =? "GOOGLE_CLOUD_PROJECT_ID")%string then Some "kotoba-project"
              else if (k =? "GOOGLE_CLOUD_LOCATION")%string then Some "asia-southeast2"
              else None;
     parseInt := parseInt Sample.world_ok;
     parseFloat := parseFloat Sample.world_ok;
     number_toString := number_toString Sample.world_ok;
     stack_frames := stack_frames Sample.world_ok;
     gt_zero := gt_zero Sample.world_ok;
     trim := trim Sample.world_ok;
     now := now Sample.world_ok;
     path_resolve := path_resolve Sample.world_ok;
     fs_existsSync := fs_existsSync Sample.world_ok;
     new_VertexAI := new_VertexAI Sample.world_ok;
     generateContent := generateContent Sample.world_ok |}.

(** How [runAllTests] counts one test. *)
Definition count_test (r : Js.Error + bool) (passed failed : nat) : nat * nat :=
  match r with
  | inr true => (S passed, failed)
  | _ => (passed, S failed)
  end.
(* ================================================================= *)
(** ** Running and scheduling agree *)

Section AsyncFacts.

Context {Heap Event : Type}.

Lemma run_settle {A B} (m : Async Heap Event A) (k : Js.Error + A -> Async Heap Event B) h :
  run (settle m k) h =
  let '(r, h1, t1) := run m h in
  let '(r2, h2, t2) := run (k r) h1 in
  (r2, h2, (t1 ++ t2)%list).
Proof.
  revert h; induction m as [a|e|f IH|f m IH|ev m IH|m IH]; intros h; cbn.
  - destruct (run (k (inr a)) h) as [[r2 h2] t2]; reflexivity.
  - destruct (run (k (inl e)) h) as [[r2 h2] t2]; reflexivity.
  - apply IH.
  - apply IH.
  - rewrite IH. destruct (run m h) as [[r h1] t1].
    destruct (run (k r) h1) as [[r2 h2] t2]; reflexivity.
  - apply IH.
Qed.

(** A call scheduled alone, turn after turn, ends as [run] says. *)
Lemma run_advance {A} (m : Async Heap Event A) h :
  run m h =
  let '(m', h1, t1) := advance m h in
  let '(r, h2, t2) := run m' h1 in
  (r, h2, (t1 ++ t2)%list).
Proof.
  revert h; induction m as [a|e|f IH|f m IH|ev m IH|m IH]; intros h; cbn;
    try reflexivity.
  - apply IH.
  - apply IH.
  - rewrite IH. destruct (advance m h) as [[m' h1] t1].
    destruct (run m' h1) as [[r h2] t2]; reflexivity.
  - destruct (run m h) as [[r h2] t2]; reflexivity.
Qed.

End AsyncFacts.

Lemma getModel_uninitialized h :
  isInitialized h = false -> run getModel h = (inl not_initialized, h, []).
Proof. intros H; cbn; rewrite H; reflexivity. Qed.

Lemma testConnection_uninitialized w h :
  isInitialized h = false -> run (testConnection w) h = (inl test_failed, h, []).
Proof. intros H; cbn; rewrite H; reflexivity. Qed.

Lemma initialize_uninitialized w h :
  isInitialized h = false ->
  run (initialize w) h =
  let '(e, h', t) := failed_attempt w h in (inl e, h', t).
Proof.
  intros H. unfold failed_attempt, initialize.
  destruct (env w "GOOGLE_APPLICATION_CREDENTIALS") as [[|a p]|]; try reflexivity.
  cbn. destruct (fs_existsSync w (path_resolve w (String a p))); cbn; try reflexivity.
  destruct (new_VertexAI w (projectId h) (location h)) as [e|c]; cbn; try reflexivity.
  rewrite H; reflexivity.
Qed.

Lemma ensureVertexAI_uninitialized w req h :
  isInitialized h = false ->
  run (ensureVertexAI w req) h =
  let '(e, h', t) := failed_attempt w h in
  (inr (Json 503 (unavailable_body e (status_of h'))), h', t).
Proof.
  intros H. unfold ensureVertexAI, try_catch, bind, await.
  rewrite !run_settle. cbn [run this_]. rewrite H. cbn [negb].
  rewrite !run_settle. rewrite (initialize_uninitialized w h H).
  destruct (failed_attempt w h) as [[e h'] t]. cbn.
  rewrite !app_nil_r. reflexivity.
Qed.

Lemma failed_attempt_flag w h :
  isInitialized (snd (fst (failed_attempt w h))) = isInitialized h.
Proof.
  unfold failed_attempt.
  destruct (env w "GOOGLE_APPLICATION_CREDENTIALS") as [[|a p]|]; try reflexivity.
  destruct (fs_existsSync w _); try reflexivity.
  destruct (new_VertexAI w _ _); reflexivity.
Qed.

Lemma failed_attempt_starts w h :
  exists t, snd (failed_attempt w h) = EvInitialize :: t.
Proof.
  unfold failed_attempt.
  destruct (env w "GOOGLE_APPLICATION_CREDENTIALS") as [[|a p]|]; try (eexists; reflexivity).
  destruct (fs_existsSync w _); try (eexists; reflexivity).
  destruct (new_VertexAI w _ _); eexists; reflexivity.
Qed.

Lemma prefix_refl s : prefix s s = true.
Proof. induction s as [|c s IH]; cbn; [reflexivity|]. destruct (ascii_dec c c); congruence. Qed.

Lemma includes_suffix needle pre : Js.includes needle (pre ++ needle) = true.
Proof.
  induction pre as [|c pre IH]; cbn [append].
  - destruct needle; cbn; [reflexivity|].
    destruct (ascii_dec a a); [|congruence]. now rewrite prefix_refl.
  - cbn [Js.includes]. destruct (prefix needle (String c (pre ++ needle))); auto.
Qed.

Ltac close_case :=
  cbn; repeat split; intros; try discriminate;
  repeat match goal with
         | H : inl _ = inl _ |- _ => injection H as <-
         end;
  eauto.

(** Every way [initialize()] can end, from any object. *)
Lemma initialize_cases w h :
  let '(r, h', t) := run (initialize w) h in
  (r = inr tt ->
     isInitialized h = true /\ isInitialized h' = true /\ initError h' = initError h
     /\ exists c, new_VertexAI w (projectId h) (location h) = inr c /\ vertexAI h' = Some c)
  /\ (forall e, r = inl e ->
        initError h' = Some e /\ isInitialized h' = isInitialized h
        /\ (vertexAI h' = vertexAI h \/ exists c, vertexAI h' = Some c))
  /\ (exists t', t = EvInitialize :: t').
Proof.
  unfold initialize.
  destruct (env w "GOOGLE_APPLICATION_CREDENTIALS") as [[|a p]|];
    [close_case| |close_case].
  cbn. destruct (fs_existsSync w (path_resolve w (String a p))); [|close_case].
  cbn. destruct (new_VertexAI w (projectId h) (location h)) as [e0|c]; [close_case|].
  cbn. destruct (isInitialized h) eqn:Hi; [|close_case].
  cbn. match goal with
       | |- context [generateContent w ?m ?q] =>
           destruct (generateContent w m q) as [e1|[[e2|s]]]
       end; close_case.
Qed.

Lemma ensureVertexAI_initialized w req h :
  isInitialized h = true ->
  run (ensureVertexAI w req) h = (inr (Next req), h, [])
  /\ advance (ensureVertexAI w req) h = (Ret (Next req), h, []).
Proof. intros H; split; cbn; rewrite H; reflexivity. Qed.

(** [checkPermissions()] always resolves, and leaves the object alone. *)
Lemma checkPermissions_resolves w h :
  exists p t, run (checkPermissions w) h = (inr p, h, t)
    /\ (hasPermissions p = false -> suggestions p = Some permission_suggestions)
    /\ (hasPermissions p = true -> perm_error p = Js.Null /\ suggestions p = None).
Proof.
  cbn. destruct (isInitialized h); cbn.
  - destruct (vertexAI h) as [c|]; cbn.
    + destruct (generateContent w _ "Test permissions") as [e|r]; cbn;
        do 2 eexists; (split; [reflexivity|]); cbn; split; intros; try discriminate; auto.
    + do 2 eexists; (split; [reflexivity|]); cbn; split; intros; try discriminate; auto.
  - do 2 eexists; (split; [reflexivity|]); cbn; split; intros; try discriminate; auto.
Qed.

(* ----------------------------------------------------------------- *)
(** *** The event loop *)

Import EventLoop.

Lemma replace_map {A B} (f : A -> B) i x l :
  replace i (f x) (map f l) = map f (replace i x l).
Proof.
  revert i; induction l as [|y l IH]; intros [|i]; cbn; try reflexivity.
  now rewrite IH.
Qed.

Lemma nth_error_replace_filter {A} (p : A -> bool) i x y l :
  nth_error l i = Some y ->
  length (filter p (replace i x l)) + (if p y then 1 else 0)
  = length (filter p l) + (if p x then 1 else 0).
Proof.
  revert i; induction l as [|z l IH]; intros [|i]; cbn; try discriminate.
  - intros [= ->]. destruct (p x), (p y); cbn; lia.
  - intros H. specialize (IH i H). destruct (p z); cbn; lia.
Qed.

Lemma In_replace {A} i (x : A) l z :
  In z (replace i x l) -> z = x \/ In z l.
Proof.
  revert i; induction l as [|y l IH]; intros [|i]; cbn; auto.
  - intros [<-|H]; auto.
  - intros [<-|H]; auto. destruct (IH i H); auto.
Qed.

Lemma handshakes_app {A} (l : Loop A) h (ts : list (M A)) i evs :
  handshakes {| heap := h; tasks := ts; log := (log l ++ map (pair i) evs)%list |}
  = handshakes l
    + length (filter (fun ev => match ev with EvInitialize => true | _ => false end) evs).
Proof.
  unfold handshakes. cbn. rewrite filter_app, length_app. f_equal.
  induction evs as [|ev evs IH]; cbn; [reflexivity|].
  destruct ev; cbn; auto.
Qed.

Lemma length_replace {A} i (x : A) l : length (replace i x l) = length l.
Proof. revert i; induction l as [|y l IH]; intros [|i]; cbn; auto. Qed.

Lemma nth_error_replace {A} i (x y : A) l j :
  nth_error l i = Some y ->
  nth_error (replace i x l) j = if Nat.eqb j i then Some x else nth_error l j.
Proof.
  revert i j; induction l as [|z l IH]; intros [|i] [|j]; cbn; try discriminate; auto.
Qed.

Lemma exec_app {A} s1 s2 (l : Loop A) : exec (s1 ++ s2) l = exec s2 (exec s1 l).
Proof. apply fold_left_app. Qed.

(** Once the client is constructed it stays stored, however the attempt
    ends. *)
Lemma initialize_keeps_handle w h p c :
  env w "GOOGLE_APPLICATION_CREDENTIALS" = Some p ->
  p <> "" ->
  fs_existsSync w (path_resolve w p) = true ->
  new_VertexAI w (projectId h) (location h) = inr c ->
  vertexAI (heap_after (initialize w) h) = Some c.
Proof.
  intros Henv Hp Hfs Hc. unfold heap_after, initialize. rewrite Henv.
  destruct p as [|a p]; [congruence|]. cbn. rewrite Hfs. cbn. rewrite Hc. cbn.
  destruct (isInitialized h); [|reflexivity]. cbn.
  match goal with
  | |- context [generateContent w ?m ?q] =>
      destruct (generateContent w m q) as [e1|[[e2|s]]]
  end; reflexivity.
Qed.

(* ----------------------------------------------------------------- *)
(** *** What the operations leave as it was *)

Lemma initialize_frame w h :
  isInitialized (heap_after (initialize w) h) = isInitialized h
  /\ config (status_of (heap_after (initialize w) h)) = config (status_of h).
Proof.
  unfold heap_after, initialize.
  destruct (env w "GOOGLE_APPLICATION_CREDENTIALS") as [[|a p]|];
    [split; reflexivity| |split; reflexivity].
  cbn. destruct (fs_existsSync w (path_resolve w (String a p))); [|split; reflexivity].
  cbn. destruct (new_VertexAI w (projectId h) (location h)) as [e0|c];
    [split; reflexivity|].
  cbn. destruct (isInitialized h) eqn:Hi; [|cbn; split; [exact Hi|reflexivity]].
  cbn. match goal with
       | |- context [generateContent w ?m ?q] =>
           destruct (generateContent w m q) as [e1|[[e2|s]]]
       end; cbn; split; auto.
Qed.

Lemma read_only_operations w h :
  heap_after (testConnection w) h = h
  /\ heap_after getModel h = h
  /\ heap_after getStatus h = h
  /\ heap_after (checkPermissions w) h = h
  /\ forall req, heap_after (addVertexAIModel req) h = h.
Proof.
  unfold heap_after. repeat split.
  - cbn. destruct (isInitialized h); cbn; [|reflexivity].
    destruct (vertexAI h); cbn; [|reflexivity].
    match goal with
    | |- context [generateContent w ?m ?q] =>
        destruct (generateContent w m q) as [e1|[[e2|s]]]
    end; reflexivity.
  - cbn. destruct (isInitialized h); cbn; [|reflexivity].
    destruct (vertexAI h); reflexivity.
  - destruct (checkPermissions_resolves w h) as (p & t & R & _). now rewrite R.
  - intros req. cbn. destruct (isInitialized h); cbn; [|reflexivity].
    destruct (vertexAI h); reflexivity.
Qed.

Lemma ensureVertexAI_heap w req h :
  heap_after (ensureVertexAI w req) h
  = if isInitialized h then h else heap_after (initialize w) h.
Proof.
  unfold heap_after. destruct (isInitialized h) eqn:Hi.
  - now rewrite (proj1 (ensureVertexAI_initialized w req h Hi)).
  - rewrite (ensureVertexAI_uninitialized w req h Hi), (initialize_uninitialized w h Hi).
    destruct (failed_attempt w h) as [[e h'] t]. reflexivity.
Qed.

Lemma after_frame w op h :
  isInitialized (after w op h) = isInitialized h
  /\ config (status_of (after w op h)) = config (status_of h).
Proof.
  destruct (read_only_operations w h) as (R1 & R2 & R3 & R4 & R5).
  destruct op; cbn [after]; rewrite ?R1, ?R2, ?R3, ?R4, ?R5; auto using initialize_frame.
  rewrite ensureVertexAI_heap. destruct (isInitialized h) eqn:Hi; [auto|].
  destruct (initialize_frame w h) as [F1 F2]. split; [congruence|exact F2].
Qed.


Section SingleFlight.

Import Phases.

Variable h0 : VertexAIConfig.
Hypothesis flag_false : isInitialized h0 = false.

Lemma advance_entered w req h :
  isInitialized h = false ->
  advance (ensureVertexAI w req) h = entered w h.
Proof.
  intros Hi. unfold entered, ensureVertexAI, initialize.
  destruct (env w "GOOGLE_APPLICATION_CREDENTIALS") as [[|a p]|].
  - cbn. rewrite Hi. reflexivity.
  - cbn. rewrite Hi. cbn.
    destruct (fs_existsSync w (path_resolve w (String a p))); [|reflexivity].
    cbn. destruct (new_VertexAI w (projectId h) (location h)) as [e|c]; [reflexivity|].
    cbn. rewrite Hi. reflexivity.
  - cbn. rewrite Hi. reflexivity.
Qed.


Ltac own_error :=
  cbn [program]; unfold the_error, failed_attempt;
  repeat match goal with
         | H : _ = _ |- _ => rewrite H
         end;
  reflexivity.

Lemma first_turn w req h :
  isInitialized h = false ->
  same_config h0 h ->
  exists ph h' evs,
    advance (ensureVertexAI w req) h = (program h0 ph, h', evs)
    /\ (ph = TestRejected w \/ ph = InitializeRejected w)
    /\ isInitialized h' = false
    /\ same_config h0 h'
    /\ length (filter is_initialize evs) = 1.
Proof.
  intros Hi Hc.
  assert (Hp : projectId h = projectId h0) by exact (f_equal cv_projectId Hc).
  assert (Hl : location h = location h0) by exact (f_equal cv_location Hc).
  rewrite (advance_entered w req h Hi).
  unfold entered. rewrite Hp, Hl.
  destruct (env w "GOOGLE_APPLICATION_CREDENTIALS") as [[|a p]|] eqn:He.
  - exists (InitializeRejected w). do 2 eexists. split; [own_error|].
    repeat split; auto.
  - destruct (fs_existsSync w (path_resolve w (String a p))) eqn:Hf.
    + destruct (new_VertexAI w (projectId h0) (location h0)) as [e|c] eqn:Hn.
      * exists (InitializeRejected w). do 2 eexists. split; [own_error|].
        repeat split; auto.
      * exists (TestRejected w). do 2 eexists. split; [own_error|].
        repeat split; auto.
    + exists (InitializeRejected w). do 2 eexists. split; [own_error|].
      repeat split; auto.
  - exists (InitializeRejected w). do 2 eexists. split; [own_error|].
    repeat split; auto.
Qed.

Lemma finished_program ph o :
  program h0 ph = Ret o ->
  exists st, o = Json 503 (unavailable_body (the_error h0 (world_of ph)) st).
Proof.
  destruct ph as [w req|w|w|w st]; cbn; try discriminate.
  intros [= <-]. eexists; reflexivity.
Qed.

Lemma turn_length {A} i (l : Loop A) : length (tasks (turn i l)) = length (tasks l).
Proof.
  unfold turn. destruct (nth_error (tasks l) i) as [m|]; [|reflexivity].
  destruct (advance m (heap l)) as [[m' h'] evs]. cbn.
  generalize (tasks l). clear. intros ts. revert i.
  induction ts as [|t ts IH]; intros [|i]; cbn; auto.
Qed.

Lemma exec_length {A} schedule (l : Loop A) :
  length (tasks (exec schedule l)) = length (tasks l).
Proof.
  revert l; induction schedule as [|i s IH]; intros l; [reflexivity|].
  cbn. fold (exec s (turn i l)). now rewrite IH, turn_length.
Qed.

(** One turn, of any call, keeps the invariant and takes that call one
    phase further. *)
Lemma turn_invariant i phases l :
  invariant_at h0 phases l ->
  exists phases', invariant_at h0 phases' (turn i l) /\ advanced i phases phases'.
Proof.
  intros (Hi & Hc & Ht & Hn). unfold turn.
  destruct (nth_error (tasks l) i) as [m|] eqn:Hm.
  2:{ exists phases. split; [repeat split; auto|]. split; [reflexivity|].
      intros j ph Hj. exists ph. repeat split; auto. intros ->.
      rewrite Ht, nth_error_map, Hj in Hm. discriminate. }
  rewrite Ht, nth_error_map in Hm.
  destruct (nth_error phases i) as [ph|] eqn:Hph; [|discriminate].
  cbn in Hm. injection Hm as <-.
  assert (Adv : forall ph', world_of ph' = world_of ph ->
                            Nat.min 3 (S (age ph)) <= age ph' ->
                            advanced i phases (replace i ph' phases)).
  { intros ph' Hw Hage. split; [apply length_replace|].
    intros j q Hj. rewrite (nth_error_replace i ph' ph phases j Hph).
    destruct (Nat.eqb_spec j i) as [->|Hne].
    - exists ph'. rewrite Hph in Hj. injection Hj as <-.
      assert (age ph <= 3) by (destruct ph; cbn; lia).
      repeat split; auto. lia.
    - exists q. repeat split; auto. intros; contradiction. }
  destruct ph as [w req|w|w|w st].
  - (* entering *)
    destruct (first_turn w req (heap l) Hi Hc)
      as (ph' & h' & evs & Ha & Hph' & Hi' & Hc' & Hev).
    cbn [program]. rewrite Ha. cbn [heap].
    exists (replace i ph' phases). split.
    2:{ apply Adv; destruct Hph' as [-> | ->]; cbn; auto; lia. }
    split; [exact Hi'|]. split; [exact Hc'|]. split.
    + cbn [tasks]. rewrite Ht. apply replace_map.
    + rewrite handshakes_app. fold is_initialize. rewrite Hev, Hn.
      pose proof (nth_error_replace_filter started i ph' (Fresh w req) phases Hph) as F.
      cbn [started] in F. destruct Hph' as [-> | ->]; cbn [started] in F; lia.
  - (* the catch block of initialize *)
    cbn [program advance initialize_catch heap].
    exists (replace i (InitializeRejected w) phases).
    split; [|apply Adv; cbn; auto; lia].
    split; [exact Hi|]. split; [exact Hc|]. split.
    + cbn [tasks]. rewrite Ht.
      exact (replace_map (program h0) i (InitializeRejected w) phases).
    + rewrite handshakes_app. cbn [filter length]. rewrite Hn.
      pose proof (nth_error_replace_filter started i (InitializeRejected w) (TestRejected w)
                    phases Hph) as F.
      cbn [started] in F. lia.
  - (* the catch block of ensureVertexAI *)
    cbn [program advance ensure_catch heap].
    exists (replace i (Finished w (status_of (heap l))) phases).
    split; [|apply Adv; cbn; auto; lia].
    split; [exact Hi|]. split; [exact Hc|]. split.
    + cbn [tasks]. rewrite Ht.
      exact (replace_map (program h0) i (Finished w (status_of (heap l))) phases).
    + rewrite handshakes_app. cbn [filter length]. rewrite Hn.
      pose proof (nth_error_replace_filter started i (Finished w (status_of (heap l)))
                    (InitializeRejected w) phases Hph) as F.
      cbn [started] in F. lia.
  - (* already finished *)
    cbn [program advance heap].
    exists (replace i (Finished w st) phases). split; [|apply Adv; cbn; auto; lia].
    split; [exact Hi|]. split; [exact Hc|]. split.
    + cbn [tasks]. rewrite Ht.
      exact (replace_map (program h0) i (Finished w st) phases).
    + rewrite handshakes_app. cbn [filter length]. rewrite Hn.
      pose proof (nth_error_replace_filter started i (Finished w st) (Finished w st)
                    phases Hph) as F.
      cbn [started] in F. lia.
Qed.

(** A schedule keeps the invariant, leaves every call in its own world,
    and takes every call it names at least one phase further. *)
Lemma exec_invariant schedule phases l :
  invariant_at h0 phases l ->
  exists phases',
    invariant_at h0 phases' (exec schedule l)
    /\ length phases' = length phases
    /\ forall j ph, nth_error phases j = Some ph ->
         exists ph', nth_error phases' j = Some ph'
                     /\ world_of ph' = world_of ph
                     /\ age ph <= age ph'
                     /\ (In j schedule -> Nat.min 3 (S (age ph)) <= age ph').
Proof.
  revert phases l; induction schedule as [|i s IH]; intros phases l H.
  - exists phases. split; [exact H|]. split; [reflexivity|].
    intros j ph Hj. exists ph. repeat split; auto. intros [].
  - destruct (turn_invariant i phases l H) as (phases1 & H1 & Hlen1 & Hadv1).
    destruct (IH phases1 (turn i l) H1) as (phases' & H' & Hlen' & Hadv').
    exists phases'. split; [exact H'|]. split; [congruence|].
    intros j ph Hj.
    destruct (Hadv1 j ph Hj) as (ph1 & Hj1 & Hw1 & Hle1 & Hi1).
    destruct (Hadv' j ph1 Hj1) as (ph' & Hj' & Hw' & Hle' & Hi').
    exists ph'. split; [exact Hj'|]. split; [congruence|]. split; [lia|].
    intros [<-|Hin]; [specialize (Hi1 eq_refl); lia | specialize (Hi' Hin); lia].
Qed.

Lemma spawn_invariant calls :
  invariant_at h0 (map (fun c => Fresh (fst c) (snd c)) calls)
               (spawn (ensure_calls calls) h0).
Proof.
  split; [exact flag_false|]. split; [reflexivity|]. split.
  - cbn. unfold ensure_calls. now rewrite map_map.
  - unfold handshakes; cbn. induction calls as [|r calls IH]; cbn; auto.
Qed.

(** A call that has finished was answered from its own attempt. *)
Lemma finished_call calls schedule i w req o :
  nth_error calls i = Some (w, req) ->
  nth_error (tasks (exec schedule (spawn (ensure_calls calls) h0))) i = Some (Ret o) ->
  exists st, o = Json 503 (unavailable_body (the_error h0 w) st).
Proof.
  intros Hc Ho.
  destruct (exec_invariant schedule _ _ (spawn_invariant calls))
    as (phases & (_ & _ & Ht & _) & _ & Hadv).
  assert (H0 : nth_error (map (fun c => Fresh (fst c) (snd c)) calls) i
               = Some (Fresh w req)) by (rewrite nth_error_map, Hc; reflexivity).
  destruct (Hadv i _ H0) as (ph & Hph & Hw & _).
  rewrite Ht, nth_error_map, Hph in Ho. cbn in Ho. injection Ho as Ho.
  destruct (finished_program ph o Ho) as [st ->]. rewrite Hw. exists st. reflexivity.
Qed.


End SingleFlight.

(* ================================================================= *)
(** ** Concurrent callers *)




(* ================================================================= *)
(** ** The status view *)

(** C9: [status()] (getStatus) never fails, changes nothing and does not
    wait: on every object it returns, within the turn, the view of the
    object as it is, leaves the object as it was and has no effect; on the
    object as the constructor leaves it, before any initialisation attempt,
    the view is [initialized = false], [error = null] and the configuration
    the constructor resolved. *)
Theorem getStatus_total_and_initial :
  (forall h, run getStatus h = (inr (status_of h), h, [])
             /\ advance getStatus h = (Ret (status_of h), h, []))
  /\ (forall w,
        result getStatus (constructor w) =
        inr {| initialized := false;
               error := Js.Null;
               config :=
                 {| cv_projectId := Js.str_or (env w "GOOGLE_CLOUD_PROJECT_ID") "dark-pipe-465302-g3";
                    cv_location := Js.str_or (env w "GOOGLE_CLOUD_LOCATION") "us-central1";
                    cv_model := Js.str_or (env w "VERTEX_AI_MODEL") "gemini-pro";
                    cv_maxTokens :=
                      Js.number_or (parseInt w (env w "VERTEX_AI_MAX_TOKENS")) (Js.Num 1000);
                    cv_temperature :=
                      Js.number_or (parseFloat w (env w "VERTEX_AI_TEMPERATURE")) (Js.Num (7 # 10)) |} |}).
Proof.
  split.
  - intros h; split; reflexivity.
  - intros w; reflexivity.
Qed.

(* ================================================================= *)
(** ** The ready state *)

(** C8: once [isInitialized] is true, [ensureVertexAI] calls [next()] within
    the turn it is entered in, leaves the object unchanged and has no effect
    (no credential check, no client construction, no remote call); so does
    any number of such calls in a row. *)
Theorem ensureVertexAI_ready_idempotent w req h n :
  isInitialized h = true ->
  run (ensureVertexAI w req) h = (inr (Next req), h, [])
  /\ advance (ensureVertexAI w req) h = (Ret (Next req), h, [])
  /\ run (calls n (ensureVertexAI w req)) h = (inr tt, h, []).
Proof.
  intros H.
  destruct (ensureVertexAI_initialized w req h H) as [R A].
  repeat split; [exact R | exact A |].
  induction n as [|n IH]; [reflexivity|].
  cbn [calls]. unfold bind. rewrite run_settle, R, IH. reflexivity.
Qed.

Lemma ensureVertexAI_ready_idempotent_witness :
  run (ensureVertexAI Sample.world_ok Sample.hello) Sample.ready
    = (inr (Next Sample.hello), Sample.ready, [])
  /\ advance (ensureVertexAI Sample.world_ok Sample.hello) Sample.ready
    = (Ret (Next Sample.hello), Sample.ready, [])
  /\ run (calls 3 (ensureVertexAI Sample.world_ok Sample.hello)) Sample.ready
    = (inr tt, Sample.ready, []).
Proof.
  apply (ensureVertexAI_ready_idempotent Sample.world_ok Sample.hello Sample.ready 3).
  reflexivity.
Defined.

(* ================================================================= *)
(** ** A missing credentials file *)

(** C7: when GOOGLE_APPLICATION_CREDENTIALS names a file that does not
    exist, [initialize()] throws an error whose message is
    "Service account file not found: " followed by the resolved path (so
    the message contains that path), records it in [initError], and
    [ensureVertexAI] answers 503 with that message as [details]; the only
    effects are the entry into [initialize] and the [existsSync] test.  The
    constructor, run in the same world, does not look at the credentials
    variable or at the file system: it yields the object made of the
    resolved parameters, with no error recorded. *)
Theorem missing_credentials_file w h req p :
  env w "GOOGLE_APPLICATION_CREDENTIALS" = Some p ->
  p <> "" ->
  fs_existsSync w (path_resolve w p) = false ->
  isInitialized h = false ->
  let fullPath := path_resolve w p in
  let msg := "Service account file not found: " ++ fullPath in
  let e := Js.new_Error msg in
  let h' := set_initError (Some e) h in
  run (initialize w) h = (inl e, h', [EvInitialize; EvExistsSync fullPath])
  /\ run (ensureVertexAI w req) h
     = (inr (Json 503 (unavailable_body e (status_of h'))), h',
        [EvInitialize; EvExistsSync fullPath])
  /\ Js.get "details" match unavailable_body e (status_of h') with
                      | Js.Obj f => f
                      | _ => []
                      end = Js.Str msg
  /\ Js.includes fullPath msg = true
  /\ constructor w
     = {| projectId := Js.str_or (env w "GOOGLE_CLOUD_PROJECT_ID") "dark-pipe-465302-g3";
          location := Js.str_or (env w "GOOGLE_CLOUD_LOCATION") "us-central1";
          model := Js.str_or (env w "VERTEX_AI_MODEL") "gemini-pro";
          maxTokens := Js.number_or (parseInt w (env w "VERTEX_AI_MAX_TOKENS")) (Js.Num 1000);
          temperature :=
            Js.number_or (parseFloat w (env w "VERTEX_AI_TEMPERATURE")) (Js.Num (7 # 10));
          vertexAI := None;
          isInitialized := false;
          initError := None |}.
Proof.
  intros Henv Hp Hfs Hinit fullPath msg e h'.
  assert (F : failed_attempt w h = (e, h', [EvInitialize; EvExistsSync fullPath])).
  { unfold failed_attempt. rewrite Henv.
    subst fullPath msg e h'. destruct p as [|a p]; [congruence|]. rewrite Hfs. reflexivity. }
  repeat split.
  - rewrite (initialize_uninitialized w h Hinit), F. reflexivity.
  - rewrite (ensureVertexAI_uninitialized w req h Hinit), F. reflexivity.
  - apply includes_suffix.
Qed.

Lemma missing_credentials_file_witness :
  let fullPath := "/srv/backend/service-account.json" in
  let msg := "Service account file not found: /srv/backend/service-account.json" in
  let e := Js.new_Error msg in
  let h' := set_initError (Some e) Sample.fresh in
  run (initialize Sample.world_missing) Sample.fresh
    = (inl e, h', [EvInitialize; EvExistsSync fullPath])
  /\ run (ensureVertexAI Sample.world_missing Sample.hello) Sample.fresh
     = (inr (Json 503 (unavailable_body e (status_of h'))), h',
        [EvInitialize; EvExistsSync fullPath])
  /\ Js.get "details" match unavailable_body e (status_of h') with
                      | Js.Obj f => f
                      | _ => []
                      end = Js.Str msg
  /\ Js.includes fullPath msg = true
  /\ constructor Sample.world_missing
     = {| projectId := "dark-pipe-465302-g3";
          location := "us-central1";
          model := "gemini-pro";
          maxTokens := Js.Num 1000;
          temperature := Js.Num (7 # 10);
          vertexAI := None;
          isInitialized := false;
          initError := None |}.
Proof.
  apply (missing_credentials_file Sample.world_missing Sample.fresh Sample.hello
           "service-account.json").
  - reflexivity.
  - discriminate.
  - reflexivity.
  - reflexivity.
Defined.

(* ================================================================= *)
(** ** The permission check *)

(** C5 does not hold as stated: on the object as constructed (not
    initialised) [checkPermissions()] does not raise; it resolves to a
    value with [hasPermissions = false], the message of [getModel]'s error
    and the four suggestions, and no remote call is made. *)
Lemma checkPermissions_not_ready_returns :
  isInitialized Sample.fresh = false
  /\ run (checkPermissions Sample.world_ok) Sample.fresh
     = (inr {| hasPermissions := false;
               perm_error := Js.Str "Vertex AI not initialized. Call initialize() first.";
               suggestions := Some permission_suggestions |},
        Sample.fresh, [])
  /\ ~ (exists e, result (checkPermissions Sample.world_ok) Sample.fresh = inl e).
Proof.
  repeat split. intros [e He]. discriminate He.
Qed.

(** C5, as the code has it: [checkPermissions()] never raises and never
    changes the object; what it resolves to is decided by three tests.
    With the flag false, [getModel] throws: [hasPermissions = false] with
    that message and the four suggestions, and no remote call.  With the
    flag true and no handle stored, reading the handle throws: the same,
    with the message of the TypeError.  With the flag true and the handle
    stored, one remote call, "Test permissions", is made through the
    configured model: refused, it gives [hasPermissions = false] with the
    message of the refusal and the four suggestions; answered, whatever
    the answer, it gives [hasPermissions = true] with [error = null] and no
    suggestions.  So [hasPermissions] is true exactly when the connection
    is ready and the remote call is answered. *)
Theorem checkPermissions_never_raises w h :
  let m c := mkModel c (model h) (maxTokens h) (temperature h) in
  (isInitialized h = false ->
   run (checkPermissions w) h
   = (inr {| hasPermissions := false;
             perm_error := Js.Str "Vertex AI not initialized. Call initialize() first.";
             suggestions := Some permission_suggestions |}, h, []))
  /\ (isInitialized h = true -> vertexAI h = None ->
      run (checkPermissions w) h
      = (inr (denied (Js.TypeError_read "null" "preview")), h, []))
  /\ (forall c e,
        isInitialized h = true -> vertexAI h = Some c ->
        generateContent w (m c) "Test permissions" = inl e ->
        run (checkPermissions w) h
        = (inr {| hasPermissions := false;
                  perm_error := Js.of_opt_str (Js.message e);
                  suggestions := Some permission_suggestions |},
           h, [EvGenerateContent (m c) "Test permissions"]))
  /\ (forall c r,
        isInitialized h = true -> vertexAI h = Some c ->
        generateContent w (m c) "Test permissions" = inr r ->
        run (checkPermissions w) h
        = (inr {| hasPermissions := true; perm_error := Js.Null; suggestions := None |},
           h, [EvGenerateContent (m c) "Test permissions"]))
  /\ (exists p t,
        run (checkPermissions w) h = (inr p, h, t)
        /\ (hasPermissions p = true
            <-> isInitialized h = true
                /\ exists c r, vertexAI h = Some c
                               /\ generateContent w (m c) "Test permissions" = inr r)
        /\ (hasPermissions p = true -> p = granted)
        /\ (hasPermissions p = false -> exists e, p = denied e)).
Proof.
  intros m.
  assert (A : isInitialized h = false ->
              run (checkPermissions w) h = (inr (denied not_initialized), h, [])).
  { intros H. cbn. rewrite H. reflexivity. }
  assert (B : isInitialized h = true -> vertexAI h = None ->
              run (checkPermissions w) h
              = (inr (denied (Js.TypeError_read "null" "preview")), h, [])).
  { intros Hi Hc. cbn. rewrite Hi, Hc. reflexivity. }
  assert (C : forall c e,
             isInitialized h = true -> vertexAI h = Some c ->
             generateContent w (m c) "Test permissions" = inl e ->
             run (checkPermissions w) h
             = (inr (denied e), h, [EvGenerateContent (m c) "Test permissions"])).
  { intros c e Hi Hc Hg. cbn. rewrite Hi, Hc. cbn. fold (m c). rewrite Hg. reflexivity. }
  assert (D : forall c r,
             isInitialized h = true -> vertexAI h = Some c ->
             generateContent w (m c) "Test permissions" = inr r ->
             run (checkPermissions w) h
             = (inr granted, h, [EvGenerateContent (m c) "Test permissions"])).
  { intros c r Hi Hc Hg. cbn. rewrite Hi, Hc. cbn. fold (m c). rewrite Hg. reflexivity. }
  split; [exact A|]. split; [exact B|]. split; [exact C|]. split; [exact D|].
  destruct (isInitialized h) eqn:Hi.
  - destruct (vertexAI h) as [c|] eqn:Hc.
    + destruct (generateContent w (m c) "Test permissions") as [e|r] eqn:Hg.
      * do 2 eexists. split; [exact (C c e eq_refl eq_refl Hg)|].
        split; [|split; [discriminate | intros _; eexists; reflexivity]].
        split; [discriminate|]. intros (_ & c' & r' & Hc' & Hg').
        injection Hc' as <-. rewrite Hg in Hg'. discriminate.
      * do 2 eexists. split; [exact (D c r eq_refl eq_refl Hg)|].
        split; [|split; [reflexivity | discriminate]].
        split; [|reflexivity]. intros _. split; [reflexivity|].
        exists c, r. split; [reflexivity | exact Hg].
    + do 2 eexists. split; [exact (B eq_refl eq_refl)|].
      split; [|split; [discriminate | intros _; eexists; reflexivity]].
      split; [discriminate|]. intros (_ & c' & r' & Hc' & _). discriminate.
  - do 2 eexists. split; [exact (A eq_refl)|].
    split; [|split; [discriminate | intros _; eexists; reflexivity]].
    split; [discriminate|]. intros (Hi' & _). discriminate.
Qed.

Lemma checkPermissions_never_raises_witness :
  run (checkPermissions Sample.world_denied) Sample.ready
  = (inr {| hasPermissions := false;
            perm_error := Js.Str "Permission denied";
            suggestions := Some permission_suggestions |},
     Sample.ready,
     [EvGenerateContent (mkModel Sample.client "gemini-pro" (Js.Num 1000) (Js.Num (7 # 10)))
                        "Test permissions"])
  /\ run (checkPermissions Sample.world_ok) Sample.ready
     = (inr {| hasPermissions := true; perm_error := Js.Null; suggestions := None |},
        Sample.ready,
        [EvGenerateContent (mkModel Sample.client "gemini-pro" (Js.Num 1000) (Js.Num (7 # 10)))
                           "Test permissions"])
  /\ run (checkPermissions Sample.world_ok) Sample.fresh
     = (inr {| hasPermissions := false;
               perm_error := Js.Str "Vertex AI not initialized. Call initialize() first.";
               suggestions := Some permission_suggestions |}, Sample.fresh, []).
Proof.
  split; [|split].
  - apply (proj1 (proj2 (proj2 (checkPermissions_never_raises Sample.world_denied Sample.ready)))
             Sample.client (Js.new_Error "Permission denied")); reflexivity.
  - apply (proj1 (proj2 (proj2 (proj2
             (checkPermissions_never_raises Sample.world_ok Sample.ready))))
             Sample.client (mkResult (inr "Hello from Vertex AI Gemini!"))); reflexivity.
  - apply (proj1 (checkPermissions_never_raises Sample.world_ok Sample.fresh)); reflexivity.
Defined.

(* ================================================================= *)
(** ** The boundary error handler *)

(** C10: [errorHandler] sends, for every error, exactly one JSON body, with
    [success: false], under exactly one status.  Its tests are applied in
    order, the later overriding the earlier: for an error whose message
    contains "Vertex AI", the status is 503 and the message "AI service
    temporarily unavailable" when "Too many requests" does not occur in it
    too, and 429 with the rate-limit message when it does, because that
    test comes last and overrides the 503 set just before; whatever the
    status the response had and whatever the error's name and kind. *)
Theorem errorHandler_total_rate_limit_last w err res m :
  Js.message err = Some m ->
  Js.includes "Vertex AI" m = true ->
  let rate := Js.includes "Too many requests" m in
  (forall err' res',
      exists fields,
        errorHandler w err' res'
        = {| statusCode := fst (classify err' res');
             sent := (sent res' ++ [Js.Obj fields])%list |}
        /\ Js.get "success" fields = Js.Bool false)
  /\ classify err res
     = (if rate then (429%Z, Some "Too many requests, please try again later")
        else (503%Z, Some "AI service temporarily unavailable"))
  /\ errorHandler w err res
     = {| statusCode := if rate then 429%Z else 503%Z;
          sent := (sent res
                   ++ [Js.Obj [ ("success", Js.Bool false);
                                ("error", Js.Str (if rate
                                                  then "Too many requests, please try again later"
                                                  else "AI service temporarily unavailable"));
                                ("stack", match env w "NODE_ENV" with
                                          | Some "production" => Js.Null
                                          | _ => Js.of_opt_str (stack_of w err)
                                          end);
                                ("timestamp", Js.Str (now w)) ]])%list |}.
Proof.
  intros Hm Hv rate.
  assert (C : classify err res
              = (if rate then (429%Z, Some "Too many requests, please try again later")
                 else (503%Z, Some "AI service temporarily unavailable"))).
  { unfold classify, message_includes. rewrite Hm, Hv. fold rate.
    destruct (_ && _), rate; reflexivity. }
  split; [|split; [exact C|]].
  - intros err' res'. unfold errorHandler.
    destruct (classify err' res') as [c msg]. eexists. split; reflexivity.
  - unfold errorHandler. rewrite C. destruct rate; reflexivity.
Qed.

Lemma errorHandler_total_rate_limit_last_witness :
  classify Sample.both_markers (mkResponse 200 [])
  = (429%Z, Some "Too many requests, please try again later")
  /\ classify (Js.new_Error "Vertex AI not initialized. Call initialize() first.")
              (mkResponse 429 [])
     = (503%Z, Some "AI service temporarily unavailable").
Proof.
  split.
  - apply (errorHandler_total_rate_limit_last Sample.world_ok Sample.both_markers
             (mkResponse 200 []) "Vertex AI quota: Too many requests");
      reflexivity.
  - apply (errorHandler_total_rate_limit_last Sample.world_ok
             (Js.new_Error "Vertex AI not initialized. Call initialize() first.")
             (mkResponse 429 []) "Vertex AI not initialized. Call initialize() first.");
      reflexivity.
Defined.

(* ================================================================= *)
(** ** The handle and the flag *)

(** C2 does not hold as stated: on the object as constructed the
    handle is absent and the flag is false; one [initialize()] in a world
    whose credentials file exists fails, and leaves the handle stored while
    the flag is still false. *)
Lemma handle_left_by_failed_attempt :
  handle_iff_ready Sample.fresh
  /\ (exists e, result (initialize Sample.world_ok) Sample.fresh = inl e)
  /\ vertexAI (after Sample.world_ok OpInitialize Sample.fresh) = Some Sample.client
  /\ isInitialized (after Sample.world_ok OpInitialize Sample.fresh) = false
  /\ ~ handle_iff_ready (after Sample.world_ok OpInitialize Sample.fresh).
Proof.
  split; [|split; [|split; [|split]]].
  - split; [intros H; now elim H | discriminate].
  - eexists; reflexivity.
  - reflexivity.
  - reflexivity.
  - intros [H _]. discriminate H. discriminate.
Qed.

(** C2, as the code has it: every operation of the connection manager
    preserves one direction, "the flag is true only if the handle is present", which the
    constructor establishes; and no operation ever removes a stored
    handle.  The other direction is not maintained: [initialize()] stores
    the handle before the connection test and does not take it back when
    the attempt fails, so an attempt that got as far as constructing the
    client leaves that client stored however it ends. *)
Theorem ready_has_handle_preserved w op h :
  ready_has_handle h ->
  ready_has_handle (constructor w)
  /\ ready_has_handle (after w op h)
  /\ (vertexAI h <> None -> vertexAI (after w op h) <> None)
  /\ (forall p c,
        env w "GOOGLE_APPLICATION_CREDENTIALS" = Some p -> p <> "" ->
        fs_existsSync w (path_resolve w p) = true ->
        new_VertexAI w (projectId h) (location h) = inr c ->
        vertexAI (after w OpInitialize h) = Some c).
Proof.
  intros Inv. split; [discriminate|].
  cut (ready_has_handle (after w op h)
       /\ (vertexAI h <> None -> vertexAI (after w op h) <> None)).
  { intros [A B]. split; [exact A|]. split; [exact B|].
    intros p c. apply initialize_keeps_handle. }
  assert (I : ready_has_handle (heap_after (initialize w) h)
              /\ (vertexAI h <> None -> vertexAI (heap_after (initialize w) h) <> None)).
  { unfold heap_after, ready_has_handle.
    pose proof (initialize_cases w h) as C.
    destruct (run (initialize w) h) as [[r h'] t]. cbn.
    destruct C as (Cok & Cerr & _). destruct r as [e|[]].
    - destruct (Cerr e eq_refl) as (_ & Hf & [Hv|[c Hv]]); rewrite Hv.
      + split; [rewrite Hf; exact Inv | auto].
      + split; discriminate.
    - destruct (Cok eq_refl) as (_ & _ & _ & c & _ & Hv). rewrite Hv.
      split; discriminate. }
  assert (E : forall req,
             ready_has_handle (heap_after (ensureVertexAI w req) h)
             /\ (vertexAI h <> None -> vertexAI (heap_after (ensureVertexAI w req) h) <> None)).
  { intros req. unfold heap_after, ensureVertexAI, try_catch, bind, await.
    rewrite !run_settle. cbn [run this_].
    destruct (isInitialized h) eqn:Hi; cbn [negb].
    - cbn. split; [exact Inv | auto].
    - rewrite !run_settle. unfold heap_after in I.
      destruct (run (initialize w) h) as [[r h'] t]. cbn in I.
      destruct r as [e|[]]; cbn; exact I. }
  assert (K : ready_has_handle h /\ (vertexAI h <> None -> vertexAI h <> None))
    by (split; auto).
  destruct op; cbn [after]; try exact I; try apply E.
  - (* testConnection *)
    replace (heap_after (testConnection w) h) with h; [exact K|].
    unfold heap_after. cbn. destruct (isInitialized h); cbn; [|reflexivity].
    destruct (vertexAI h); cbn; [|reflexivity].
    match goal with
    | |- context [generateContent w ?m ?q] =>
        destruct (generateContent w m q) as [e1|[[e2|s]]]
    end; reflexivity.
  - (* getModel *)
    replace (heap_after getModel h) with h; [exact K|].
    unfold heap_after. cbn. destruct (isInitialized h); cbn; [|reflexivity].
    destruct (vertexAI h); reflexivity.
  - (* getStatus *) exact K.
  - (* checkPermissions *)
    destruct (checkPermissions_resolves w h) as (p & t & R & _).
    unfold heap_after. rewrite R. exact K.
  - (* addVertexAIModel *)
    replace (heap_after (addVertexAIModel req) h) with h; [exact K|].
    unfold heap_after. cbn. destruct (isInitialized h); cbn; [|reflexivity].
    destruct (vertexAI h); reflexivity.
Qed.

Lemma ready_has_handle_preserved_witness :
  ready_has_handle (constructor Sample.world_denied)
  /\ ready_has_handle (after Sample.world_denied OpInitialize Sample.ready)
  /\ (vertexAI Sample.ready <> None ->
      vertexAI (after Sample.world_denied OpInitialize Sample.ready) <> None)
  /\ (forall p c,
        env Sample.world_denied "GOOGLE_APPLICATION_CREDENTIALS" = Some p -> p <> "" ->
        fs_existsSync Sample.world_denied (path_resolve Sample.world_denied p) = true ->
        new_VertexAI Sample.world_denied (projectId Sample.ready) (location Sample.ready)
        = inr c ->
        vertexAI (after Sample.world_denied OpInitialize Sample.ready) = Some c).
Proof.
  apply (ready_has_handle_preserved Sample.world_denied OpInitialize Sample.ready).
  unfold ready_has_handle. simpl. discriminate.
Defined.

(* ================================================================= *)
(** ** What a successful attempt leaves behind *)



(* ================================================================= *)
(** ** Recovery after a failure *)

(** C6 is what the code aims at and misses.  A first call made while the
    credentials file is missing leaves the object failed (flag false, error
    recorded).  The file is then put in place and the remote model answers;
    the next [ensureVertexAI] does start a new attempt (credential check,
    client construction), but the attempt fails in [testConnection], whose
    [getModel()] refuses to run while the flag is false, and the flag is
    only set after [testConnection] returns: the answer is 503 again and
    the object is still not initialised.  No remote call is made. *)
Theorem recovery_attempt_fails_again :
  isInitialized failed = false
  /\ initError failed
     = Some (Js.new_Error "Service account file not found: /srv/backend/service-account.json")
  /\ run (ensureVertexAI Sample.world_ok Sample.hello) failed
     = (inr (Json 503
               (unavailable_body test_failed
                  (status_of (set_initError (Some test_failed)
                                (set_vertexAI (Some Sample.client) failed))))),
        set_initError (Some test_failed) (set_vertexAI (Some Sample.client) failed),
        [ EvInitialize;
          EvExistsSync "/srv/backend/service-account.json";
          EvNewVertexAI "dark-pipe-465302-g3" "us-central1" ])
  /\ isInitialized (heap_after (ensureVertexAI Sample.world_ok Sample.hello) failed) = false
  /\ (forall w req h,
        isInitialized h = false ->
        isInitialized (heap_after (ensureVertexAI w req) h) = false
        /\ exists b, result (ensureVertexAI w req) h = inr (Json 503 b)).
Proof.
  split; [reflexivity|]. split; [reflexivity|]. split; [reflexivity|].
  split; [reflexivity|].
  intros w req h H. unfold heap_after, result.
  rewrite (ensureVertexAI_uninitialized w req h H).
  pose proof (failed_attempt_flag w h) as F.
  destruct (failed_attempt w h) as [[e h'] t]. cbn in *.
  split; [congruence | eexists; reflexivity].
Qed.

Lemma recovery_attempt_fails_again_witness :
  isInitialized (heap_after (ensureVertexAI Sample.world_ok Sample.hello) failed) = false
  /\ exists b, result (ensureVertexAI Sample.world_ok Sample.hello) failed = inr (Json 503 b).
Proof.
  apply (proj2 (proj2 (proj2 (proj2 recovery_attempt_fails_again)))
           Sample.world_ok Sample.hello failed).
  reflexivity.
Defined.

(* ================================================================= *)
(** ** Validation and the connection check *)

(** C4 does not hold as stated: a translate request without [text],
    sent while the object is failed, is answered 503 by [ensureVertexAI],
    not 400, and a new initialisation attempt (with its credential check)
    is made before the route and its validation are reached. *)
Lemma missing_field_on_failed_connection :
  Js.truthy (Js.get (required_field Translate) (body Sample.no_text)) = false
  /\ isInitialized failed = false
  /\ initError failed <> None
  /\ run (invoke Sample.world_missing Translate Sample.no_text) failed
     = (inr (Json 503
               (unavailable_body
                  (Js.new_Error "Service account file not found: /srv/backend/service-account.json")
                  (status_of failed))),
        failed,
        [ EvInitialize; EvExistsSync "/srv/backend/service-account.json" ])
  /\ result (invoke Sample.world_missing Translate Sample.no_text) failed
     <> inr (Json 400 (failure (required_message Translate))).
Proof.
  split; [reflexivity|]. split; [reflexivity|]. split; [discriminate|].
  split; [reflexivity|]. discriminate.
Qed.

(** C4, as the code has it: the connection check comes first.  The router runs
    [ensureVertexAI], then [addVertexAIModel], then the route, and only the
    route validates.  So for a request missing the field its operation
    requires: while the flag is false, an initialisation attempt is made
    first, and if it fails the answer is the 503 of [ensureVertexAI]; once
    the flag is true and the handle stored, the answer is the 400 of the
    operation, the object is unchanged and nothing is attempted (no
    handshake, no remote call). *)
Theorem validation_follows_connection_check w op req h :
  Js.truthy (Js.get (required_field op) (body req)) = false ->
  (isInitialized h = false ->
     (exists t, trace (invoke w op req) h = EvInitialize :: t)
     /\ forall e, result (initialize w) h = inl e ->
          exists st, result (invoke w op req) h = inr (Json 503 (unavailable_body e st)))
  /\ (forall c, isInitialized h = true -> vertexAI h = Some c ->
        run (invoke w op req) h = (inr (Json 400 (failure (required_message op))), h, [])).
Proof.
  intros Hmiss. split.
  - intros Hi. unfold trace, result, invoke, use, bind.
    rewrite run_settle, (ensureVertexAI_uninitialized w req h Hi).
    rewrite (initialize_uninitialized w h Hi).
    destruct (failed_attempt_starts w h) as [t Ht].
    destruct (failed_attempt w h) as [[e h'] t0]. cbn in Ht |- *. subst t0.
    split; [eexists; reflexivity|].
    intros e0 [= <-]. eexists; reflexivity.
  - intros c Hi Hc. unfold invoke, use, bind.
    rewrite run_settle, (proj1 (ensureVertexAI_initialized w req h Hi)).
    rewrite run_settle.
    assert (A : run (addVertexAIModel req) h
                = (inr (Next {| originalUrl := originalUrl req; body := body req;
                                vertexAIModel := Some (mkModel c (model h) (maxTokens h)
                                                               (temperature h)) |}), h, [])).
    { cbn. rewrite Hi, Hc. reflexivity. }
    rewrite A.
    destruct op; cbn [handler required_field required_message] in *;
      [unfold translate|unfold explain_kanji|unfold explain_grammar
       |unfold chat|unfold generate_examples];
      cbn [body]; rewrite Hmiss; reflexivity.
Qed.

Lemma validation_follows_connection_check_witness :
  run (invoke Sample.world_ok Translate Sample.no_text) Sample.ready
  = (inr (Json 400 (failure "Text is required for translation")), Sample.ready, []).
Proof.
  apply (proj2 (validation_follows_connection_check Sample.world_ok Translate
                  Sample.no_text Sample.ready eq_refl) Sample.client);
    reflexivity.
Defined.

(* ================================================================= *)
(** ** More about the routes *)

Lemma run_ask w req prompt h m :
  vertexAIModel req = Some m ->
  run (ask w req prompt) h =
  (match generateContent w m prompt with
   | inl e => inl e
   | inr r => response_text r
   end, h, [EvGenerateContent m prompt]).
Proof.
  intros Hm. unfold ask. rewrite Hm. cbn.
  destruct (generateContent w m prompt) as [e|[[e|t]]]; reflexivity.
Qed.

Ltac route_tail w req h m Hm :=
  cbv zeta; unfold try_catch, bind; rewrite ?run_settle;
  match goal with
  | |- context [lift ?p] =>
      let e := fresh "e" in
      let prompt := fresh "prompt" in
      let text := fresh "text" in
      destruct p as [e|prompt];
      [ reflexivity
      | cbn [lift run]; rewrite ?run_settle, (run_ask w req prompt h m Hm);
        destruct (match generateContent w m prompt with
                  | inl e => inl e
                  | inr res => response_text res
                  end) as [e|text];
        [reflexivity | eexists; split; [reflexivity|repeat split]] ]
  end.

Lemma handler_cases w op req h m :
  vertexAIModel req = Some m ->
  Js.truthy (Js.get (required_field op) (body req)) = true ->
  route_outcome w op req m (run (handler w op req) h) h.
Proof.
  intros Hm Ht. unfold route_outcome, prompt_of.
  destruct op; cbn [handler required_field failure_label answer_key] in *.
  - unfold translate. rewrite Ht. cbn [negb]. route_tail w req h m Hm.
  - unfold explain_kanji. rewrite Ht. cbn [negb]. route_tail w req h m Hm.
  - unfold explain_grammar. rewrite Ht. cbn [negb].
    destruct (examplesText w (Js.get "examples" (body req))) as [e|ex].
    + cbv zeta. unfold try_catch, bind. rewrite ?run_settle. reflexivity.
    + cbv zeta. unfold try_catch, bind. rewrite ?run_settle. cbn [lift run].
      route_tail w req h m Hm.
  - unfold chat. rewrite Ht. cbn [negb]. route_tail w req h m Hm.
  - unfold generate_examples. rewrite Ht. cbn [negb]. route_tail w req h m Hm.
Qed.

Lemma handler_missing w op req h :
  Js.truthy (Js.get (required_field op) (body req)) = false ->
  run (handler w op req) h = (inr (Json 400 (failure (required_message op))), h, []).
Proof.
  intros Hmiss.
  destruct op; cbn [handler required_field required_message] in *;
    [unfold translate|unfold explain_kanji|unfold explain_grammar
     |unfold chat|unfold generate_examples];
    rewrite Hmiss; reflexivity.
Qed.

Lemma addVertexAIModel_ready req h c :
  isInitialized h = true -> vertexAI h = Some c ->
  run (addVertexAIModel req) h = (inr (Next (with_model c h req)), h, []).
Proof. intros Hi Hc. cbn. rewrite Hi, Hc. reflexivity. Qed.

(** With the flag true and the handle stored, the two middlewares pass the
    request on, with the model attached, without any effect. *)
Lemma invoke_ready w op req h c :
  isInitialized h = true -> vertexAI h = Some c ->
  run (invoke w op req) h = run (handler w op (with_model c h req)) h.
Proof.
  intros Hi Hc. unfold invoke, use, bind.
  rewrite run_settle, (proj1 (ensureVertexAI_initialized w req h Hi)).
  rewrite run_settle, (addVertexAIModel_ready req h c Hi Hc).
  destruct (run (handler w op (with_model c h req)) h) as [[r h'] t]. reflexivity.
Qed.

Lemma invoke_no_handle w op req h :
  isInitialized h = true -> vertexAI h = None ->
  run (invoke w op req) h
  = (inr (Json 503 (failure_details "AI model unavailable"
                      (Js.TypeError_read "null" "preview"))), h, []).
Proof.
  intros Hi Hc. unfold invoke, use, bind.
  rewrite run_settle, (proj1 (ensureVertexAI_initialized w req h Hi)).
  rewrite run_settle. cbn. rewrite Hi, Hc. reflexivity.
Qed.

Lemma invoke_uninitialized w op req h :
  isInitialized h = false ->
  run (invoke w op req) h =
  let '(e, h', t) := failed_attempt w h in
  (inr (Json 503 (unavailable_body e (status_of h'))), h', t).
Proof.
  intros Hi. unfold invoke, use, bind.
  rewrite run_settle, (ensureVertexAI_uninitialized w req h Hi).
  destruct (failed_attempt w h) as [[e h'] t]. cbn. now rewrite app_nil_r.
Qed.

Lemma failed_attempt_quiet w h :
  filter is_generate (snd (failed_attempt w h)) = [].
Proof.
  unfold failed_attempt.
  destruct (env w "GOOGLE_APPLICATION_CREDENTIALS") as [[|a p]|]; try reflexivity.
  destruct (fs_existsSync w _); try reflexivity.
  destruct (new_VertexAI w _ _); reflexivity.
Qed.

Lemma mounted_ready w route req h c :
  isInitialized h = true -> vertexAI h = Some c ->
  run (mounted w route req) h = run (route (with_model c h req)) h.
Proof.
  intros Hi Hc. unfold mounted, use, bind.
  rewrite run_settle, (proj1 (ensureVertexAI_initialized w req h Hi)).
  rewrite run_settle, (addVertexAIModel_ready req h c Hi Hc).
  destruct (run (route (with_model c h req)) h) as [[r h'] t]. reflexivity.
Qed.

Lemma mounted_no_handle w route req h :
  isInitialized h = true -> vertexAI h = None ->
  run (mounted w route req) h
  = (inr (Json 503 (failure_details "AI model unavailable"
                      (Js.TypeError_read "null" "preview"))), h, []).
Proof.
  intros Hi Hc. unfold mounted, use, bind.
  rewrite run_settle, (proj1 (ensureVertexAI_initialized w req h Hi)).
  rewrite run_settle. cbn. rewrite Hi, Hc. reflexivity.
Qed.

Lemma mounted_uninitialized w route req h :
  isInitialized h = false ->
  run (mounted w route req) h = run (ensureVertexAI w req) h
  /\ exists b, result (ensureVertexAI w req) h = inr (Json 503 b).
Proof.
  intros Hi. unfold mounted, use, bind, result.
  rewrite run_settle, (ensureVertexAI_uninitialized w req h Hi).
  destruct (failed_attempt w h) as [[e h'] t]. cbn. rewrite app_nil_r.
  split; [reflexivity | eexists; reflexivity].
Qed.

(* ----------------------------------------------------------------- *)
(** *** What building a prompt can throw *)











(** X2: no retries and no stray calls.  One request makes at most one
    remote call; it makes one only when the flag is true and the handle
    stored, through the model built from the configured model name, token
    limit and temperature; and then the answer is 200 or 500. *)
Theorem at_most_one_remote_call w op req h :
  filter is_generate (trace (invoke w op req) h) = []
  \/ exists c prompt code b,
       isInitialized h = true /\ vertexAI h = Some c
       /\ trace (invoke w op req) h
          = [EvGenerateContent (mkModel c (model h) (maxTokens h) (temperature h)) prompt]
       /\ result (invoke w op req) h = inr (Json code b)
       /\ (code = 200 \/ code = 500)%Z.
Proof.
  unfold trace, result.
  destruct (isInitialized h) eqn:Hi.
  - destruct (vertexAI h) as [c|] eqn:Hc.
    + rewrite (invoke_ready w op req h c Hi Hc).
      destruct (Js.truthy (Js.get (required_field op) (body req))) eqn:Ht.
      * pose proof (handler_cases w op (with_model c h req) h _ eq_refl Ht) as H.
        unfold route_outcome in H.
        destruct (prompt_of w op (body (with_model c h req))) as [e|prompt];
          [rewrite H; left; reflexivity|].
        right. exists c, prompt.
        destruct (match generateContent w _ prompt with
                  | inl e => inl e | inr res => response_text res end) as [e|text].
        { rewrite H. do 2 eexists. repeat split; auto. }
        destruct H as (fields & -> & _). do 2 eexists. repeat split; auto.
      * rewrite (handler_missing w op (with_model c h req) h Ht). left; reflexivity.
    + rewrite (invoke_no_handle w op req h Hi Hc). left; reflexivity.
  - rewrite (invoke_uninitialized w op req h Hi).
    pose proof (failed_attempt_quiet w h) as Q.
    destruct (failed_attempt w h) as [[e h'] t]. left. exact Q.
Qed.

(** X3: once the flag is true, serving a request never touches the
    connection object, whatever the operation, the body, and the way the
    remote call ends. *)
Theorem requests_leave_the_connection_alone w op req h :
  isInitialized h = true ->
  heap_after (invoke w op req) h = h.
Proof.
  intros Hi. unfold heap_after.
  destruct (vertexAI h) as [c|] eqn:Hc.
  - rewrite (invoke_ready w op req h c Hi Hc).
    destruct (Js.truthy (Js.get (required_field op) (body req))) eqn:Ht.
    + pose proof (handler_cases w op (with_model c h req) h _ eq_refl Ht) as H.
      unfold route_outcome in H.
      destruct (prompt_of w op (body (with_model c h req))) as [e|prompt];
        [rewrite H; reflexivity|].
      destruct (match generateContent w _ prompt with
                | inl e => inl e | inr res => response_text res end) as [e|text].
      * rewrite H. reflexivity.
      * destruct H as (fields & -> & _). reflexivity.
    + rewrite (handler_missing w op (with_model c h req) h Ht). reflexivity.
  - rewrite (invoke_no_handle w op req h Hi Hc). reflexivity.
Qed.

Lemma requests_leave_the_connection_alone_witness :
  heap_after (invoke Sample.world_denied Chat Sample.hello) Sample.ready_stale
  = Sample.ready_stale.
Proof.
  apply (requests_leave_the_connection_alone Sample.world_denied Chat Sample.hello
           Sample.ready_stale).
  reflexivity.
Defined.

(** X4: on a ready connection the answer is the 400 exactly when the
    field the operation requires is falsy (absent, [null], [""], [0],
    [false]); a request with a truthy field is never rejected as
    invalid. *)
Theorem rejected_iff_required_field_falsy w op req h c :
  isInitialized h = true -> vertexAI h = Some c ->
  (exists b, result (invoke w op req) h = inr (Json 400 b))
  <-> Js.truthy (Js.get (required_field op) (body req)) = false.
Proof.
  intros Hi Hc. unfold result. rewrite (invoke_ready w op req h c Hi Hc).
  split.
  - intros [b Hb].
    destruct (Js.truthy (Js.get (required_field op) (body req))) eqn:Ht; [|reflexivity].
    exfalso.
    pose proof (handler_cases w op (with_model c h req) h _ eq_refl Ht) as H.
    unfold route_outcome in H.
    destruct (prompt_of w op (body (with_model c h req))) as [e|prompt].
    + rewrite H in Hb. discriminate.
    + destruct (match generateContent w _ prompt with
                | inl e => inl e | inr res => response_text res end) as [e|text].
      * rewrite H in Hb. discriminate.
      * destruct H as (fields & H & _). rewrite H in Hb. discriminate.
  - intros Ht. rewrite (handler_missing w op (with_model c h req) h Ht).
    eexists; reflexivity.
Qed.

Lemma rejected_iff_required_field_falsy_witness :
  (exists b, result (invoke Sample.world_ok Translate Sample.no_text) Sample.ready
             = inr (Json 400 b))
  <-> Js.truthy (Js.get (required_field Translate) (body Sample.no_text)) = false.
Proof.
  apply (rejected_iff_required_field_falsy Sample.world_ok Translate Sample.no_text
           Sample.ready Sample.client); reflexivity.
Defined.



(** X6: leaving [targetLanguage] out of a translate request is the same as
    asking for "Indonesian": the route runs the same program, so the two
    requests get the same answer, make the same remote call and leave the
    same object, in every state. *)
Theorem default_target_language w req h :
  Js.get "targetLanguage" (body req) = Js.Undefined ->
  translate w req = translate w (with_default_language req)
  /\ run (invoke w Translate req) h = run (invoke w Translate (with_default_language req)) h.
Proof.
  intros Hd.
  assert (T : forall m,
             translate w {| originalUrl := originalUrl req; body := body req;
                            vertexAIModel := m |}
             = translate w {| originalUrl := originalUrl req;
                              body := ("targetLanguage", Js.Str "Indonesian") :: body req;
                              vertexAIModel := m |}).
  { intros m. unfold translate. cbn [body Js.get]. rewrite Hd.
    replace ("targetLanguage" =? "text")%string with false by reflexivity.
    replace ("targetLanguage" =? "targetLanguage")%string with true by reflexivity.
    reflexivity. }
  split.
  - destruct req as [u b m]. exact (T m).
  - destruct (isInitialized h) eqn:Hi.
    + destruct (vertexAI h) as [c|] eqn:Hc.
      * rewrite !(invoke_ready w Translate _ h c Hi Hc). cbn [handler].
        unfold with_model, with_default_language. cbn [originalUrl body vertexAIModel].
        now rewrite <- T.
      * now rewrite !(invoke_no_handle w Translate _ h Hi Hc).
    + now rewrite !(invoke_uninitialized w Translate _ h Hi).
Qed.

Lemma default_target_language_witness :
  run (invoke Sample.world_ok Translate
         (mkRequest "/api/vertexai/translate" [ ("text", Js.Str "Hello world") ] None))
      Sample.ready
  = run (invoke Sample.world_ok Translate
           (with_default_language
              (mkRequest "/api/vertexai/translate" [ ("text", Js.Str "Hello world") ] None)))
        Sample.ready.
Proof.
  apply (default_target_language Sample.world_ok
           (mkRequest "/api/vertexai/translate" [ ("text", Js.Str "Hello world") ] None)
           Sample.ready).
  reflexivity.
Defined.

(** X7: on a ready connection (flag true, handle stored), an
    explain-grammar request that has a truthy [grammar] and whose
    [examples] is a non-empty string instead of an array is answered 500
    "Grammar explanation failed", with "examples.map is not a function"
    as details, before any remote call is made; the object is left as it
    was. *)
Theorem string_examples_fail_before_the_call w req h c s :
  isInitialized h = true -> vertexAI h = Some c ->
  Js.truthy (Js.get "grammar" (body req)) = true ->
  Js.get "examples" (body req) = Js.Str s ->
  s <> "" ->
  run (invoke w ExplainGrammar req) h
  = (inr (Json 500 (failure_details "Grammar explanation failed"
                      (Js.TypeError_call "examples.map"))), h, []).
Proof.
  intros Hi Hc Hg He Hs. rewrite (invoke_ready w ExplainGrammar req h c Hi Hc).
  cbn [handler]. unfold explain_grammar.
  cbn [body with_model]. rewrite Hg, He. cbn [negb].
  assert (X : examplesText w (Js.Str s) = inl (Js.TypeError_call "examples.map")).
  { unfold examplesText. cbn [Js.truthy]. destruct s as [|a s]; [congruence|]. reflexivity. }
  cbv zeta. unfold try_catch, bind. rewrite !run_settle, X. reflexivity.
Qed.

Lemma string_examples_fail_before_the_call_witness :
  run (invoke Sample.world_ok ExplainGrammar grammar_with_string_examples) Sample.ready
  = (inr (Json 500 (failure_details "Grammar explanation failed"
                      (Js.TypeError_call "examples.map"))), Sample.ready, []).
Proof.
  apply (string_examples_fail_before_the_call Sample.world_ok grammar_with_string_examples
           Sample.ready Sample.client "kore wa hon desu");
    try reflexivity.
  discriminate.
Defined.

(** X8: the status route never answers 500.  The handler itself never
    takes its 500 branch: [checkPermissions] catches everything, so in
    every state the handler answers 200 with [success: true] and
    "Vertex AI is running", and leaves the object alone.  As the router
    mounts it, behind [ensureVertexAI] and [addVertexAIModel], a status
    request gets that 200 exactly when the flag is true and the handle is
    stored, and then costs one remote call, "Test permissions", and leaves
    the object as it was; with the flag true and no handle it is answered
    503 "AI model unavailable" by [addVertexAIModel]; with the flag false
    it is answered 503 by [ensureVertexAI], whose initialisation attempt
    it costs. *)
Theorem status_route_never_answers_500 w req h :
  (exists fields t,
     run (status_route w req) h = (inr (Json 200 (Js.Obj fields)), h, t)
     /\ Js.get "success" fields = Js.Bool true
     /\ Js.get "status" fields = Js.Str "Vertex AI is running"
     /\ Js.get "initialized" fields = Js.Bool (isInitialized h))
  /\ (forall c, isInitialized h = true -> vertexAI h = Some c ->
        exists fields,
          run (mounted w (status_route w) req) h
          = (inr (Json 200 (Js.Obj fields)), h,
             [EvGenerateContent (mkModel c (model h) (maxTokens h) (temperature h))
                                "Test permissions"])
          /\ Js.get "success" fields = Js.Bool true
          /\ Js.get "status" fields = Js.Str "Vertex AI is running"
          /\ Js.get "initialized" fields = Js.Bool true)
  /\ (isInitialized h = true -> vertexAI h = None ->
      run (mounted w (status_route w) req) h
      = (inr (Json 503 (failure_details "AI model unavailable"
                          (Js.TypeError_read "null" "preview"))), h, []))
  /\ (isInitialized h = false ->
      run (mounted w (status_route w) req) h = run (ensureVertexAI w req) h
      /\ exists b, result (ensureVertexAI w req) h = inr (Json 503 b))
  /\ (exists code b,
        result (mounted w (status_route w) req) h = inr (Json code b)
        /\ (code = 200 \/ code = 503)%Z
        /\ (code = 200%Z <-> isInitialized h = true /\ vertexAI h <> None)).
Proof.
  assert (A : forall req0 h0,
             exists p t,
               run (checkPermissions w) h0 = (inr p, h0, t)
               /\ (forall c, isInitialized h0 = true -> vertexAI h0 = Some c ->
                      t = [EvGenerateContent
                             (mkModel c (model h0) (maxTokens h0) (temperature h0))
                             "Test permissions"])
               /\ run (status_route w req0) h0
                  = (inr (Json 200
                            (Js.Obj [ ("success", Js.Bool true);
                                      ("status", Js.Str "Vertex AI is running");
                                      ("initialized", Js.Bool (initialized (status_of h0)));
                                      ("error", error (status_of h0));
                                      ("config", config_value (config (status_of h0)));
                                      ("permissions",
                                       Js.Obj [ ("hasPermissions", Js.Bool (hasPermissions p));
                                                ("error", perm_error p);
                                                ("suggestions",
                                                 match suggestions p with
                                                 | Some l => Js.Arr (map Js.Str l)
                                                 | None => Js.Undefined
                                                 end) ]);
                                      ("timestamp", Js.Str (now w)) ])), h0, t)).
  { intros req0 h0. destruct (checkPermissions_resolves w h0) as (p & t & R & _).
    exists p, t. split; [exact R|]. split.
    - intros c Hi Hc. revert R. cbn. rewrite Hi, Hc. cbn.
      destruct (generateContent w _ "Test permissions") as [e|r]; cbn; intros [= _ <-];
        reflexivity.
    - unfold status_route, try_catch, bind, await. rewrite !run_settle.
      replace (run getStatus h0) with (inr (A := Js.Error) (status_of h0), h0, @nil Event)
        by reflexivity.
      cbv beta iota. rewrite !run_settle, R. cbn. now rewrite !app_nil_r. }
  assert (H1 : forall c, isInitialized h = true -> vertexAI h = Some c ->
                 exists fields,
                   run (mounted w (status_route w) req) h
                   = (inr (Json 200 (Js.Obj fields)), h,
                      [EvGenerateContent (mkModel c (model h) (maxTokens h) (temperature h))
                                         "Test permissions"])
                   /\ Js.get "success" fields = Js.Bool true
                   /\ Js.get "status" fields = Js.Str "Vertex AI is running"
                   /\ Js.get "initialized" fields = Js.Bool true).
  { intros c Hi Hc. rewrite (mounted_ready w (status_route w) req h c Hi Hc).
    destruct (A (with_model c h req) h) as (p & t & _ & Ht & R).
    rewrite R, (Ht c Hi Hc). eexists. split; [reflexivity|].
    split; [reflexivity|]. split; [reflexivity|]. cbn. now rewrite Hi. }
  split; [|split; [exact H1|split; [|split]]].
  - destruct (A req h) as (p & t & _ & _ & R). rewrite R. do 2 eexists.
    split; [reflexivity|]. repeat split.
  - apply mounted_no_handle.
  - apply mounted_uninitialized.
  - unfold result. destruct (isInitialized h) eqn:Hi.
    + destruct (vertexAI h) as [c|] eqn:Hc.
      * destruct (H1 c eq_refl eq_refl) as (fields & -> & _).
        do 2 eexists. split; [reflexivity|]. split; [auto|].
        split; [intros _; split; [reflexivity|discriminate] | reflexivity].
      * rewrite (mounted_no_handle w (status_route w) req h Hi Hc).
        do 2 eexists. split; [reflexivity|]. split; [auto|].
        split; [discriminate | intros [_ N]; contradiction N; reflexivity].
    + destruct (mounted_uninitialized w (status_route w) req h Hi) as [-> [b Hb]].
      unfold result in Hb. rewrite Hb.
      do 2 eexists. split; [reflexivity|]. split; [auto|].
      split; [discriminate | intros [N _]; discriminate N].
Qed.

Lemma status_route_never_answers_500_witness :
  (exists fields,
     run (mounted Sample.world_denied (status_route Sample.world_denied) Sample.hello)
         Sample.ready
     = (inr (Json 200 (Js.Obj fields)), Sample.ready,
        [EvGenerateContent
           (mkModel Sample.client (model Sample.ready) (maxTokens Sample.ready)
                    (temperature Sample.ready))
           "Test permissions"])
     /\ Js.get "success" fields = Js.Bool true
     /\ Js.get "status" fields = Js.Str "Vertex AI is running"
     /\ Js.get "initialized" fields = Js.Bool true)
  /\ (run (mounted Sample.world_ok (status_route Sample.world_ok) Sample.hello) Sample.fresh
      = run (ensureVertexAI Sample.world_ok Sample.hello) Sample.fresh
      /\ exists b, result (ensureVertexAI Sample.world_ok Sample.hello) Sample.fresh
                   = inr (Json 503 b)).
Proof.
  split.
  - apply (proj1 (proj2 (status_route_never_answers_500 Sample.world_denied Sample.hello
                           Sample.ready)) Sample.client); reflexivity.
  - apply (proj1 (proj2 (proj2 (proj2
             (status_route_never_answers_500 Sample.world_ok Sample.hello Sample.fresh)))));
      reflexivity.
Defined.

(* ================================================================= *)
(** ** More about the connection manager *)

(** X9: no operation of the connection manager ever changes
    [isInitialized]: after any sequence of operations, in any worlds, the
    flag is what it was.  From the object as constructed it is therefore
    false for ever, and [getModel()] keeps throwing. *)
Theorem flag_never_changes steps h :
  isInitialized (after_all steps h) = isInitialized h
  /\ (forall w0, isInitialized (after_all steps (constructor w0)) = false
                 /\ result getModel (after_all steps (constructor w0)) = inl not_initialized).
Proof.
  assert (F : forall steps h, isInitialized (after_all steps h) = isInitialized h).
  { clear. induction steps as [|[w op] rest IH]; intros h; [reflexivity|].
    cbn [after_all]. rewrite IH. apply after_frame. }
  split; [apply F|].
  intros w0. assert (H : isInitialized (after_all steps (constructor w0)) = false)
    by (rewrite F; reflexivity).
  split; [exact H|]. unfold result. now rewrite (getModel_uninitialized _ H).
Qed.

(** X10: the configuration is never mutated after load: after any sequence
    of operations the project, location, model name, token limit and
    temperature are those the constructor resolved. *)
Theorem configuration_is_never_mutated steps h :
  config (status_of (after_all steps h)) = config (status_of h).
Proof.
  revert h; induction steps as [|[w op] rest IH]; intros h; [reflexivity|].
  cbn [after_all]. rewrite IH. apply after_frame.
Qed.

(** X11: what the constructor reads and what it falls back on.  A
    string variable (project, location, model) that is unset or empty
    gives the default string ("dark-pipe-465302-g3", "us-central1",
    "gemini-pro"), and one that is set to a non-empty string is taken as
    it is.  A numeric variable whose parse is NaN or 0 gives the default
    number (1000 tokens, temperature 0.7), and any other parse is taken as
    it is.  So no parameter of a constructed object is ever empty or zero,
    and a temperature of 0 cannot be configured. *)
Theorem constructed_configuration_is_never_empty w :
  let strings := [ ("GOOGLE_CLOUD_PROJECT_ID", projectId (constructor w), "dark-pipe-465302-g3");
                   ("GOOGLE_CLOUD_LOCATION", location (constructor w), "us-central1");
                   ("VERTEX_AI_MODEL", model (constructor w), "gemini-pro") ] in
  (forall key value default,
      In (key, value, default) strings ->
      value <> ""
      /\ (Js.str_truthy (env w key) = false -> value = default)
      /\ (forall s, env w key = Some s -> s <> "" -> value = s))
  /\ Js.number_truthy (maxTokens (constructor w)) = true
  /\ Js.number_truthy (temperature (constructor w)) = true
  /\ (Js.number_truthy (parseInt w (env w "VERTEX_AI_MAX_TOKENS")) = false ->
      maxTokens (constructor w) = Js.Num 1000)
  /\ (Js.number_truthy (parseInt w (env w "VERTEX_AI_MAX_TOKENS")) = true ->
      maxTokens (constructor w) = parseInt w (env w "VERTEX_AI_MAX_TOKENS"))
  /\ (Js.number_truthy (parseFloat w (env w "VERTEX_AI_TEMPERATURE")) = false ->
      temperature (constructor w) = Js.Num (7 # 10))
  /\ (Js.number_truthy (parseFloat w (env w "VERTEX_AI_TEMPERATURE")) = true ->
      temperature (constructor w) = parseFloat w (env w "VERTEX_AI_TEMPERATURE")).
Proof.
  assert (S : forall a d, d <> "" ->
                Js.str_or a d <> ""
                /\ (Js.str_truthy a = false -> Js.str_or a d = d)
                /\ (forall s, a = Some s -> s <> "" -> Js.str_or a d = s)).
  { intros a d Hd. destruct a as [[|c s]|]; cbn.
    - split; [exact Hd|]. split; [reflexivity|].
      intros s0 [= <-] N. contradiction N; reflexivity.
    - split; [discriminate|]. split; [discriminate|]. intros s0 [= <-] _. reflexivity.
    - split; [exact Hd|]. split; [reflexivity|]. intros s0 [=]. }
  assert (N : forall a d, Js.number_truthy d = true ->
                Js.number_truthy (Js.number_or a d) = true
                /\ (Js.number_truthy a = false -> Js.number_or a d = d)
                /\ (Js.number_truthy a = true -> Js.number_or a d = a)).
  { intros a d Hd. unfold Js.number_or.
    destruct (Js.number_truthy a) eqn:Ha; repeat split; auto; discriminate. }
  cbn [constructor projectId location model maxTokens temperature].
  destruct (N (parseInt w (env w "VERTEX_AI_MAX_TOKENS")) (Js.Num 1000) eq_refl)
    as (M1 & M2 & M3).
  destruct (N (parseFloat w (env w "VERTEX_AI_TEMPERATURE")) (Js.Num (7 # 10)) eq_refl)
    as (T1 & T2 & T3).
  split; [|repeat split; assumption].
  intros key value default [[= <- <- <-]|[[= <- <- <-]|[[= <- <- <-]|[]]]];
    apply S; discriminate.
Qed.

Lemma constructed_configuration_is_never_empty_witness :
  projectId (constructor world_zero) = "dark-pipe-465302-g3"
  /\ location (constructor world_zero) = "0"
  /\ maxTokens (constructor world_zero) = Js.Num 1000
  /\ temperature (constructor world_zero) = Js.Num (7 # 10).
Proof.
  destruct (constructed_configuration_is_never_empty world_zero)
    as (Hs & _ & _ & Hm & _ & Ht & _).
  split; [|split; [|split; [apply Hm; reflexivity | apply Ht; reflexivity]]].
  - apply (proj1 (proj2 (Hs "GOOGLE_CLOUD_PROJECT_ID" (projectId (constructor world_zero))
                            "dark-pipe-465302-g3" (or_introl eq_refl)))).
    reflexivity.
  - apply (proj2 (proj2 (Hs "GOOGLE_CLOUD_LOCATION" (location (constructor world_zero))
                            "us-central1" (or_intror (or_introl eq_refl)))) "0").
    + reflexivity.
    + discriminate.
Defined.

(** X12: a credentials variable that is unset, or set to the empty string,
    makes [initialize()] fail with
    "GOOGLE_APPLICATION_CREDENTIALS environment variable not set", from any
    object: the file system is not consulted, no client is constructed,
    the handle and the flag stay as they were, and the error is
    recorded. *)
Theorem unset_credentials w h :
  Js.str_truthy (env w "GOOGLE_APPLICATION_CREDENTIALS") = false ->
  let e := Js.new_Error "GOOGLE_APPLICATION_CREDENTIALS environment variable not set" in
  run (initialize w) h = (inl e, set_initError (Some e) h, [EvInitialize]).
Proof.
  intros H e. unfold initialize.
  destruct (env w "GOOGLE_APPLICATION_CREDENTIALS") as [[|a p]|];
    [reflexivity|discriminate H|reflexivity].
Qed.

Lemma unset_credentials_witness :
  let e := Js.new_Error "GOOGLE_APPLICATION_CREDENTIALS environment variable not set" in
  run (initialize world_unset) Sample.ready
  = (inl e, set_initError (Some e) Sample.ready, [EvInitialize]).
Proof.
  apply (unset_credentials world_unset Sample.ready). reflexivity.
Defined.

(** X13: a failed [initialize()] is never swallowed: the error it throws
    is the one it records in [initError], and [getStatus()] reports that
    error's message from then on ([null] only if the message is empty or
    missing). *)
Theorem failures_are_recorded w h e :
  result (initialize w) h = inl e ->
  initError (heap_after (initialize w) h) = Some e
  /\ result getStatus (heap_after (initialize w) h)
     = inr {| initialized := isInitialized h;
              error := Js.str_or_null (Js.message e);
              config := config (status_of h) |}.
Proof.
  unfold result, heap_after. intros R.
  pose proof (initialize_cases w h) as C.
  destruct (initialize_frame w h) as [F1 F2]. unfold heap_after in F1, F2.
  destruct (run (initialize w) h) as [[r h'] t]. cbn in *. subst r.
  destruct C as (_ & Cerr & _). destruct (Cerr e eq_refl) as (He & _).
  split; [exact He|]. unfold status_of in *. cbn in *. rewrite He, F1, F2. reflexivity.
Qed.

Lemma failures_are_recorded_witness :
  initError (heap_after (initialize Sample.world_missing) Sample.fresh)
  = Some (Js.new_Error "Service account file not found: /srv/backend/service-account.json")
  /\ result getStatus (heap_after (initialize Sample.world_missing) Sample.fresh)
     = inr {| initialized := isInitialized Sample.fresh;
              error := Js.str_or_null
                         (Js.message
                            (Js.new_Error
                               "Service account file not found: /srv/backend/service-account.json"));
              config := config (status_of Sample.fresh) |}.
Proof.
  apply (failures_are_recorded Sample.world_missing Sample.fresh). reflexivity.
Defined.

(** X14: [ensureVertexAI] never throws and never alters the request.  It
    either calls [next()] with the request it was given, the flag being
    true and the object untouched, or it answers 503
    "AI service unavailable", and then the [details] of the body and the
    [status] embedded in it report the same error, the one just recorded
    in [initError]. *)
Theorem ensureVertexAI_passes_or_answers_503 w req h :
  (isInitialized h = true
   /\ run (ensureVertexAI w req) h = (inr (Next req), h, []))
  \/ (isInitialized h = false
      /\ exists e,
           result (ensureVertexAI w req) h
           = inr (Json 503 (unavailable_body e
                              (status_of (heap_after (ensureVertexAI w req) h))))
           /\ initError (heap_after (ensureVertexAI w req) h) = Some e
           /\ field_of "details" (unavailable_body e
                                    (status_of (heap_after (ensureVertexAI w req) h)))
              = Js.of_opt_str (Js.message e)
           /\ error (status_of (heap_after (ensureVertexAI w req) h))
              = Js.str_or_null (Js.message e)).
Proof.
  destruct (isInitialized h) eqn:Hi.
  - left. split; [reflexivity|]. exact (proj1 (ensureVertexAI_initialized w req h Hi)).
  - right. split; [reflexivity|]. unfold result, heap_after.
    rewrite (ensureVertexAI_uninitialized w req h Hi).
    assert (E : initError (snd (fst (failed_attempt w h)))
                = Some (fst (fst (failed_attempt w h)))).
    { unfold failed_attempt.
      destruct (env w "GOOGLE_APPLICATION_CREDENTIALS") as [[|a p]|]; try reflexivity.
      destruct (fs_existsSync w _); try reflexivity.
      destruct (new_VertexAI w _ _); reflexivity. }
    destruct (failed_attempt w h) as [[e h'] t]. cbn in *.
    exists e. repeat split; auto. unfold status_of. cbn. now rewrite E.
Qed.

(** X15: every failure of [testConnection()] is wrapped, and the object is
    left alone.  What fails is decided by the state: with the flag false
    it is [getModel]'s "Vertex AI not initialized. Call initialize()
    first."; with the flag true and no handle, the TypeError of reading
    the handle; with the handle, the refusal of the remote call
    (the fixed test prompt, through the configured model), or the error
    of reading the text of its answer.  The error thrown is then a new
    [Error] whose message is "Vertex AI connection test failed: "
    followed by the message of that cause ("undefined" if it has none);
    when nothing fails, the text of the answer is returned.  [errorHandler]
    answers such an error with 429 when the message of the cause contains
    "Too many requests", and with 503 otherwise. *)
Theorem connection_test_failures_are_wrapped w h :
  heap_after (testConnection w) h = h
  /\ match connection_test_cause w h with
     | Some cause =>
         let e := Js.new_Error ("Vertex AI connection test failed: "
                                ++ Js.template (Js.message cause)) in
         result (testConnection w) h = inl e
         /\ forall w' res,
              statusCode (errorHandler w' e res)
              = if Js.includes "Too many requests" (Js.template (Js.message cause))
                then 429%Z else 503%Z
     | None =>
         exists c text,
           vertexAI h = Some c
           /\ generateContent w (mkModel c (model h) (maxTokens h) (temperature h)) testPrompt
              = inr (mkResult (inr text))
           /\ result (testConnection w) h = inr text
     end.
Proof.
  split; [apply read_only_operations|].
  assert (E : forall cause w' res,
             statusCode (errorHandler w'
                           (Js.new_Error ("Vertex AI connection test failed: "
                                          ++ Js.template (Js.message cause))) res)
             = if Js.includes "Too many requests" (Js.template (Js.message cause))
               then 429%Z else 503%Z).
  { intros cause w' res. unfold errorHandler, classify, message_includes.
    cbn [Js.message Js.new_Error Js.name Js.kind].
    replace (Js.includes "Vertex AI"
               ("Vertex AI connection test failed: " ++ Js.template (Js.message cause)))
      with true by reflexivity.
    replace (Js.includes "Too many requests"
               ("Vertex AI connection test failed: " ++ Js.template (Js.message cause)))
      with (Js.includes "Too many requests" (Js.template (Js.message cause)))
      by reflexivity.
    destruct (Js.includes "Too many requests" _); reflexivity. }
  unfold connection_test_cause.
  destruct (isInitialized h) eqn:Hi; cbv beta iota zeta delta [negb].
  2:{ split; [unfold result; cbn; rewrite Hi; reflexivity | exact (E _)]. }
  destruct (vertexAI h) as [c|] eqn:Hc.
  2:{ split; [unfold result; cbn; rewrite Hi, Hc; reflexivity | exact (E _)]. }
  destruct (generateContent w (mkModel c (model h) (maxTokens h) (temperature h)) testPrompt)
    as [e1|[[e2|s]]] eqn:G; cbv beta iota zeta delta [response_text];
    pose proof G as G'; cbn in G'.
  - split; [unfold result; cbn; rewrite Hi, Hc; cbn; rewrite G'; reflexivity | exact (E _)].
  - split; [unfold result; cbn; rewrite Hi, Hc; cbn; rewrite G'; reflexivity | exact (E _)].
  - exists c, s. split; [reflexivity|]. split; [exact G|].
    unfold result; cbn; rewrite Hi, Hc; cbn; rewrite G'; reflexivity.
Qed.

(* ================================================================= *)
(** ** More about the error handler *)

(** X16: the three tests of [errorHandler] amount to a priority order:
    a "Too many requests" message gives 429; otherwise a "Vertex AI"
    message gives 503; otherwise a Mongoose cast error gives 404; otherwise
    the status already set on the response is kept, with 500 standing in
    for 200, and the error's own message is sent.  So the handler never
    answers 200. *)
Theorem errorHandler_priorities w err res :
  let rate := message_includes "Too many requests" err in
  let vertex := message_includes "Vertex AI" err in
  let cast := ((Js.name err =? "CastError")%string
               && match Js.kind err with
                  | Some k => (k =? "ObjectId")%string
                  | None => false
                  end)%bool in
  classify err res
  = (if rate then (429%Z, Some "Too many requests, please try again later")
     else if vertex then (503%Z, Some "AI service temporarily unavailable")
     else if cast then (404%Z, Some "Resource not found")
     else (if (statusCode res =? 200)%Z then 500%Z else statusCode res, Js.message err))
  /\ statusCode (errorHandler w err res) = fst (classify err res)
  /\ statusCode (errorHandler w err res) <> 200%Z.
Proof.
  intros rate vertex cast.
  assert (C : classify err res
              = (if rate then (429%Z, Some "Too many requests, please try again later")
                 else if vertex then (503%Z, Some "AI service temporarily unavailable")
                 else if cast then (404%Z, Some "Resource not found")
                 else (if (statusCode res =? 200)%Z then 500%Z else statusCode res,
                       Js.message err))).
  { unfold classify. fold rate vertex cast. destruct cast, vertex, rate; reflexivity. }
  assert (S : statusCode (errorHandler w err res) = fst (classify err res)).
  { unfold errorHandler. destruct (classify err res). reflexivity. }
  split; [exact C|]. split; [exact S|]. rewrite S, C.
  destruct rate; [discriminate|]. destruct vertex; [discriminate|].
  destruct cast; [discriminate|]. cbn.
  destruct (statusCode res =? 200)%Z eqn:E; [discriminate|].
  now apply Z.eqb_neq.
Qed.

Lemma prefix_chars needle s c :
  prefix needle s = true -> In c (chars needle) -> In c (chars s).
Proof.
  revert s; induction needle as [|a n IH]; intros s Hp Hin; [destruct Hin|].
  destruct s as [|b s]; cbn in Hp; [discriminate|].
  destruct (ascii_dec a b) as [->|]; [|discriminate].
  destruct Hin as [<-|Hin]; [left; reflexivity|right; eauto].
Qed.

Lemma includes_chars needle hay c :
  Js.includes needle hay = true -> In c (chars needle) -> In c (chars hay).
Proof.
  induction hay as [|b hay IH]; cbn [Js.includes]; intros H Hin.
  - destruct (prefix needle "") eqn:P; [|discriminate]. eapply prefix_chars; eauto.
  - destruct (prefix needle (String b hay)) eqn:P.
    + eapply prefix_chars; eauto.
    + right. auto.
Qed.

(** X17: a request that reaches [notFound] is answered 404
    "Not Found - <url>".  [notFound] sets 404 and hands its error to
    [errorHandler], which keeps both the status and the message, because
    the message of a URL (which holds no space) can carry neither of the
    two markers; outside production the body carries the stack of that
    error, header line and frames.  A URL under the router that none of
    its routes matches reaches [notFound] only when the flag is true and
    the handle is stored: the two middlewares of the router run first, and
    otherwise answer 503 themselves. *)
Theorem unknown_route_is_answered_404 w req res :
  ~ In " "%char (chars (originalUrl req)) ->
  errorHandler w (snd (notFound req res)) (fst (notFound req res))
  = {| statusCode := 404%Z;
       sent := (sent res
                ++ [Js.Obj [ ("success", Js.Bool false);
                             ("error", Js.Str ("Not Found - " ++ originalUrl req));
                             ("stack",
                              match env w "NODE_ENV" with
                              | Some "production" => Js.Null
                              | _ => Js.Str ("Error: Not Found - " ++ originalUrl req
                                             ++ stack_frames w
                                                  (Js.new_Error
                                                     ("Not Found - " ++ originalUrl req)))
                              end);
                             ("timestamp", Js.Str (now w)) ]])%list |}
  /\ forall h,
       match result (mounted w no_route req) h with
       | inr (Next req') =>
           isInitialized h = true
           /\ exists c, vertexAI h = Some c /\ req' = with_model c h req
       | inr (Json code _) =>
           code = 503%Z /\ (isInitialized h = false \/ vertexAI h = None)
       | inl _ => False
       end.
Proof.
  intros Hsp. split.
  - assert (N : forall needle, In " "%char (chars needle) ->
                               Js.includes needle (originalUrl req) = false).
    { intros needle Hin. destruct (Js.includes needle (originalUrl req)) eqn:E; [|reflexivity].
      exfalso. apply Hsp. eapply includes_chars; eauto. }
    assert (V : Js.includes "Vertex AI" ("Not Found - " ++ originalUrl req) = false).
    { cbn. apply N. cbn. auto 10. }
    assert (T : Js.includes "Too many requests" ("Not Found - " ++ originalUrl req) = false).
    { cbn. apply N. cbn. auto 10. }
    unfold notFound, errorHandler, classify, message_includes.
    cbn [fst snd Js.message Js.new_Error Js.name Js.kind res_status statusCode sent].
    rewrite V, T. cbn [String.eqb Ascii.eqb Bool.eqb andb].
    destruct (env w "NODE_ENV") as [s|]; reflexivity.
  - intros h. unfold result. destruct (isInitialized h) eqn:Hi.
    + destruct (vertexAI h) as [c|] eqn:Hc.
      * rewrite (mounted_ready w no_route req h c Hi Hc). cbn.
        split; [reflexivity|]. exists c. split; reflexivity.
      * rewrite (mounted_no_handle w no_route req h Hi Hc). cbn. auto.
    + destruct (mounted_uninitialized w no_route req h Hi) as [-> [b Hb]].
      unfold result in Hb. rewrite Hb. auto.
Qed.

Lemma unknown_route_is_answered_404_witness :
  errorHandler Sample.world_ok
    (snd (notFound (mkRequest "/api/unknown" [] None) (mkResponse 200 [])))
    (fst (notFound (mkRequest "/api/unknown" [] None) (mkResponse 200 [])))
  = {| statusCode := 404%Z;
       sent := [Js.Obj [ ("success", Js.Bool false);
                         ("error", Js.Str "Not Found - /api/unknown");
                         ("stack",
                          Js.Str ("Error: Not Found - /api/unknown" ++ Js.nl
                                  ++ "    at Layer.handle (router/layer.js:95:5)"));
                         ("timestamp", Js.Str "2025-01-01T00:00:00.000Z") ]] |}.
Proof.
  rewrite (proj1 (unknown_route_is_answered_404 Sample.world_ok
                    (mkRequest "/api/unknown" [] None) (mkResponse 200 [])
                    ltac:(cbn; intuition discriminate))).
  reflexivity.
Defined.

(* ================================================================= *)
(** ** The server *)

(** X18: the health check always answers 200 "OK", whatever the state of
    the connection, without touching the object and without any effect;
    it says "ready" exactly when the flag is true, and embeds the status
    view, error included. *)
Theorem health_is_always_ok w uptime h :
  exists fields,
    run (health w uptime) h = (inr (Json 200 (Js.Obj fields)), h, [])
    /\ Js.get "status" fields = Js.Str "OK"
    /\ (field_of "vertexAI" (Js.get "services" fields) = Js.Str "ready"
        <-> isInitialized h = true)
    /\ Js.get "vertexAI" fields = status_value (status_of h).
Proof.
  eexists. split; [reflexivity|]. split; [reflexivity|]. split; [|reflexivity].
  cbn. destruct (isInitialized h); split; intros H; try reflexivity; discriminate H.
Qed.

(** X19: start-up never fails because of the AI connection: the callback
    of [app.listen] swallows whatever [initialize()] throws, and leaves
    the object and the effects exactly as [initialize()] leaves them (the
    error recorded, the flag as it was). *)
Theorem startup_swallows_the_failure w h :
  result (startup w) h = inr tt
  /\ heap_after (startup w) h = heap_after (initialize w) h
  /\ trace (startup w) h = trace (initialize w) h.
Proof.
  unfold result, heap_after, trace, startup, try_catch, await.
  rewrite !run_settle.
  destruct (run (initialize w) h) as [[[e|[]] h'] t]; cbn; rewrite ?app_nil_r; auto.
Qed.

(** X20: the rate limiter is never configured with a window or a maximum
    of 0 or NaN: a variable that is unset, does not parse, or parses to 0
    gives 15 minutes (900000 ms) and 100 requests. *)
Theorem limiter_is_never_disabled w :
  Js.number_truthy (windowMs (limiter w)) = true
  /\ Js.number_truthy (max (limiter w)) = true
  /\ (Js.number_truthy (parseInt w (env w "RATE_LIMIT_WINDOW_MS")) = false ->
      windowMs (limiter w) = Js.Num (900000 # 1))
  /\ (Js.number_truthy (parseInt w (env w "RATE_LIMIT_MAX_REQUESTS")) = false ->
      max (limiter w) = Js.Num 100).
Proof.
  unfold limiter, Js.number_or. cbn [windowMs max].
  destruct (Js.number_truthy (parseInt w (env w "RATE_LIMIT_WINDOW_MS"))) eqn:A,
           (Js.number_truthy (parseInt w (env w "RATE_LIMIT_MAX_REQUESTS"))) eqn:B;
    repeat split; auto; discriminate.
Qed.

Lemma limiter_is_never_disabled_witness :
  windowMs (limiter world_zero) = Js.Num (900000 # 1)
  /\ max (limiter world_zero) = Js.Num 100.
Proof.
  destruct (limiter_is_never_disabled world_zero) as (_ & _ & Hw & Hm).
  split; [apply Hw; reflexivity | apply Hm; reflexivity].
Defined.

(* ================================================================= *)
(** ** The test script *)

Lemma testConfiguration_cases w h :
  (exists b, result (testConfiguration w) h = inr b)
  /\ heap_after (testConfiguration w) h = h
  /\ (result (testConfiguration w) h = inr true
      <-> Js.str_truthy (env w "GOOGLE_CLOUD_PROJECT_ID") = true
          /\ Js.str_truthy (env w "GOOGLE_CLOUD_LOCATION") = true
          /\ exists p, env w "GOOGLE_APPLICATION_CREDENTIALS" = Some p
                       /\ p <> ""
                       /\ fs_existsSync w (path_resolve w p) = true).
Proof.
  unfold result, heap_after, testConfiguration, missing, requiredEnvVars.
  cbn [filter].
  destruct (Js.str_truthy (env w "GOOGLE_CLOUD_PROJECT_ID")) eqn:A;
    destruct (Js.str_truthy (env w "GOOGLE_CLOUD_LOCATION")) eqn:B;
    destruct (env w "GOOGLE_APPLICATION_CREDENTIALS") as [[|a p]|] eqn:C;
    cbn;
    try (split; [eexists; reflexivity|split; [reflexivity|]];
         split; [discriminate|];
         intros (Ha & Hb & q & Hq & Hne & _); congruence).
  destruct (fs_existsSync w (path_resolve w (String a p))) eqn:D; cbn;
    (split; [eexists; reflexivity|split; [reflexivity|]]).
  - split; [intros _|reflexivity]. repeat split. exists (String a p).
    repeat split; auto. discriminate.
  - split; [discriminate|]. intros (_ & _ & q & Hq & _ & Hf).
    injection Hq as <-. congruence.
Qed.

(** X21: [testConfiguration()] never throws, and passes exactly when the
    three required variables are set and non-empty and the credentials
    file exists at the resolved path; it only reads (one [existsSync] at
    most). *)
Theorem testConfiguration_passes_iff w h :
  (exists b, result (testConfiguration w) h = inr b)
  /\ heap_after (testConfiguration w) h = h
  /\ (result (testConfiguration w) h = inr true
      <-> Js.str_truthy (env w "GOOGLE_CLOUD_PROJECT_ID") = true
          /\ Js.str_truthy (env w "GOOGLE_CLOUD_LOCATION") = true
          /\ exists p, env w "GOOGLE_APPLICATION_CREDENTIALS" = Some p
                       /\ p <> ""
                       /\ fs_existsSync w (path_resolve w p) = true).
Proof. exact (testConfiguration_cases w h). Qed.

(** X22: the script's configuration test is at least as strict as the
    server: whenever [testConfiguration()] passes, [initialize()], from
    any object, gets past its credential check and constructs a client. *)
Theorem configuration_test_implies_credential_check w h h' :
  result (testConfiguration w) h = inr true ->
  exists p t,
    env w "GOOGLE_APPLICATION_CREDENTIALS" = Some p
    /\ trace (initialize w) h'
       = EvInitialize :: EvExistsSync (path_resolve w p)
         :: EvNewVertexAI (projectId h') (location h') :: t.
Proof.
  intros R. apply (proj2 (proj2 (testConfiguration_cases w h))) in R.
  destruct R as (_ & _ & p & Hp & Hne & Hf).
  exists p. unfold trace, initialize. rewrite Hp.
  destruct p as [|a p]; [congruence|]. cbn. rewrite Hf. cbn.
  destruct (new_VertexAI w (projectId h') (location h')) as [e|c]; cbn;
    [eexists; split; reflexivity|].
  destruct (isInitialized h'); cbn; [|eexists; split; reflexivity].
  match goal with
  | |- context [generateContent w ?m ?q] =>
      destruct (generateContent w m q) as [e1|[[e2|s]]]
  end; cbn; eexists; split; reflexivity.
Qed.

Lemma configuration_test_implies_credential_check_witness :
  exists p t,
    env world_configured "GOOGLE_APPLICATION_CREDENTIALS" = Some p
    /\ trace (initialize world_configured) Sample.ready
       = EvInitialize :: EvExistsSync (path_resolve world_configured p)
         :: EvNewVertexAI (projectId Sample.ready) (location Sample.ready) :: t.
Proof.
  apply (configuration_test_implies_credential_check world_configured Sample.fresh
           Sample.ready).
  reflexivity.
Defined.

Lemma run_tests_step test rest passed failed h :
  run (run_tests (test :: rest) passed failed) h =
  let '(r, h1, t1) := run test h in
  let counts := count_test r passed failed in
  let '(r2, h2, t2) := run (run_tests rest (fst counts) (snd counts)) h1 in
  (r2, h2, (t1 ++ t2)%list).
Proof.
  cbn [run_tests]. unfold bind, try_catch, await. rewrite !run_settle.
  destruct (run test h) as [[[e|[|]] h1] t1]; cbn; rewrite ?app_nil_r;
    match goal with
    | |- context [run ?m h1] => destruct (run m h1) as [[r2 h2] t2]
    end; reflexivity.
Qed.

Lemma run_tests_counts ts p f h0 :
  exists p' f',
    result (run_tests ts p f) h0 = inr (p', f')
    /\ p' + f' = p + f + length ts /\ p <= p' /\ f <= f'.
Proof.
  unfold result. revert p f h0.
  induction ts as [|t ts IH]; intros p f h0.
  - exists p, f. cbn. repeat split; lia.
  - rewrite run_tests_step. destruct (run t h0) as [[r h1] t1]. cbv zeta.
    destruct (IH (fst (count_test r p f)) (snd (count_test r p f)) h1)
      as (p' & f' & R & S & Lp & Lf).
    exists p', f'.
    destruct (run (run_tests ts (fst (count_test r p f)) (snd (count_test r p f))) h1)
      as [[r2 h2] t2]. cbn in R |- *. split; [exact R|].
    destruct r as [e|[|]]; cbn in *; lia.
Qed.

Lemma count_test_is_pass r p f :
  count_test r p f = if is_pass r then (S p, f) else (p, S f).
Proof. destruct r as [e|[|]]; reflexivity. Qed.

Lemma run_tests_outcomes ts p f h :
  result (run_tests ts p f) h
  = inr (p + length (filter is_pass (outcomes ts h)),
         f + length (filter (fun r => negb (is_pass r)) (outcomes ts h))).
Proof.
  unfold result. revert p f h.
  induction ts as [|t ts IH]; intros p f h.
  - cbn. now rewrite !Nat.add_0_r.
  - rewrite run_tests_step. cbn [outcomes filter]. unfold result, heap_after.
    destruct (run t h) as [[r h1] t1]. cbv zeta. cbn [fst snd].
    specialize (IH (fst (count_test r p f)) (snd (count_test r p f)) h1).
    destruct (run (run_tests ts (fst (count_test r p f)) (snd (count_test r p f))) h1)
      as [[r2 h2] t2]. cbn [fst] in IH |- *. rewrite IH, count_test_is_pass.
    destruct (is_pass r); cbn [fst snd negb length]; f_equal; f_equal; lia.
Qed.

Lemma none_failed {A} (p : A -> bool) l :
  (length (filter (fun r => negb (p r)) l) =? 0) = forallb p l.
Proof.
  induction l as [|x l IH]; [reflexivity|].
  cbn. destruct (p x); cbn; [exact IH | reflexivity].
Qed.

Lemma outcomes_length ts h : length (outcomes ts h) = length ts.
Proof. revert h; induction ts as [|t ts IH]; intros h; cbn; auto. Qed.

(** X23: [runAllTests] counts every test exactly once and never stops
    early.  Whatever the tests do, the loop ends, with [passed] raised by
    the number of tests that returned [true] and [failed] by the number
    of all the others: a test that returns [false] and a test that throws
    are both counted as failed, and the tests after it still run.  The
    suite has seven tests, and the exit code is 0 exactly when each of the
    seven returned [true], and 1 otherwise. *)
Theorem every_test_is_counted tests0 passed failed h :
  result (run_tests tests0 passed failed) h
  = inr (passed + length (filter is_pass (outcomes tests0 h)),
         failed + length (filter (fun r => negb (is_pass r)) (outcomes tests0 h)))
  /\ length (outcomes tests0 h) = length tests0
  /\ length (filter is_pass (outcomes tests0 h))
     + length (filter (fun r => negb (is_pass r)) (outcomes tests0 h))
     = length tests0
  /\ (forall e, is_pass (inl e) = false)
  /\ forall w api,
       length (tests w api) = 7
       /\ result (runAllTests w api) h
          = inr (if forallb is_pass (outcomes (tests w api) h) then 0 else 1).
Proof.
  split; [apply run_tests_outcomes|]. split; [apply outcomes_length|]. split.
  { rewrite <- (outcomes_length tests0 h). generalize (outcomes tests0 h). intros l.
    induction l as [|r l IH]; [reflexivity|]. cbn. destruct (is_pass r); cbn; lia. }
  split; [reflexivity|].
  intros w api. split; [reflexivity|].
  pose proof (run_tests_outcomes (tests w api) 0 0 h) as R.
  unfold result, runAllTests, bind in *. rewrite run_settle.
  destruct (run (run_tests (tests w api) 0 0) h) as [[r h1] t1]. cbn [fst] in R. subst r.
  cbn [fst snd run]. rewrite Nat.add_0_l, none_failed.
  destruct (forallb is_pass (outcomes (tests w api) h)); reflexivity.
Qed.

(** X24: run in a fresh process, the test suite cannot pass.  The
    initialisation test calls [initialize()] on an object whose flag is
    false, which fails whatever the environment and the remote service do;
    that test is counted as failed, and the suite exits with code 1. *)
Theorem test_suite_cannot_pass w api h :
  isInitialized h = false ->
  result (runAllTests w api) h = inr 1.
Proof.
  intros Hi.
  destruct (testConfiguration_cases w h) as ([b Hb] & Hh & _).
  unfold result, runAllTests, bind, tests. rewrite run_settle, run_tests_step.
  unfold result in Hb. unfold heap_after in Hh.
  destruct (run (testConfiguration w) h) as [[r1 h1] t1]. cbn in Hb, Hh. subst r1 h1.
  cbv zeta. rewrite run_tests_step.
  assert (I : run (testVertexAIInitialization w) h
              = (inr false, snd (fst (failed_attempt w h)), snd (failed_attempt w h))).
  { unfold testVertexAIInitialization, try_catch, bind, await. rewrite !run_settle.
    rewrite (initialize_uninitialized w h Hi).
    destruct (failed_attempt w h) as [[e h'] t]. cbn. now rewrite !app_nil_r. }
  rewrite I. cbv zeta.
  set (c1 := count_test (inr b) 0 0).
  set (c2 := count_test (inr false) (fst c1) (snd c1)).
  assert (P : 1 <= snd c2) by (subst c2 c1; destruct b; cbn; lia).
  destruct (run_tests_counts
              [testBasicGeneration w; testTranslation w; testKanjiExplanation w;
               testPermissions w; api]
              (fst c2) (snd c2) (snd (fst (failed_attempt w h))))
    as (p' & f' & R & _ & _ & Lf).
  unfold result in R.
  destruct (run (run_tests _ (fst c2) (snd c2)) (snd (fst (failed_attempt w h))))
    as [[r2 h2] t2].
  cbn in R. subst r2. cbn.
  destruct f' as [|f']; [lia|reflexivity].
Qed.

Lemma test_suite_cannot_pass_witness :
  result (runAllTests world_configured (Ret true) ) (constructor world_configured) = inr 1.
Proof.
  apply (test_suite_cannot_pass world_configured (Ret true) (constructor world_configured)).
  reflexivity.
Defined.

(** X25: the three generation tests never throw and never touch the
    object; one passes exactly when the flag is true, the handle is stored,
    the remote call succeeds and its text can be read.  So before an
    initialisation has succeeded they fail without calling the model. *)
Theorem generation_test_passes_iff w prompt h :
  (exists b, result (generation_test w prompt) h = inr b)
  /\ heap_after (generation_test w prompt) h = h
  /\ (result (generation_test w prompt) h = inr true
      <-> exists c r text,
            isInitialized h = true /\ vertexAI h = Some c
            /\ generateContent w (mkModel c (model h) (maxTokens h) (temperature h)) prompt
               = inr r
            /\ response_text r = inr text)
  /\ (isInitialized h = false ->
      run (generation_test w prompt) h = (inr false, h, [])).
Proof.
  unfold result, heap_after, generation_test. cbn.
  destruct (isInitialized h) eqn:Hi; cbn.
  - destruct (vertexAI h) as [c|] eqn:Hc; cbn.
    + destruct (generateContent w (mkModel c (model h) (maxTokens h) (temperature h)) prompt)
        as [e|[[e|text]]] eqn:G; cbn;
        (split; [eexists; reflexivity|]); (split; [reflexivity|]);
        (split; [|discriminate]).
      * split; [discriminate|]. intros (c' & r & t & _ & [= <-] & G' & _). congruence.
      * split; [discriminate|]. intros (c' & r & t & _ & [= <-] & G' & T).
        rewrite G in G'. injection G' as <-. discriminate T.
      * split; [intros _|reflexivity]. exists c, (mkResult (inr text)), text. auto.
    + (split; [eexists; reflexivity|]); (split; [reflexivity|]); (split; [|discriminate]).
      split; [discriminate|]. intros (c' & r & t & _ & [=] & _).
  - (split; [eexists; reflexivity|]); (split; [reflexivity|]); (split; [|reflexivity]).
    split; [discriminate|]. intros (c' & r & t & [=] & _).
Qed.

(** X26: [testPermissions()] never throws and never touches the object; it
    passes exactly when the flag is true, the handle is stored and the
    diagnostic call "Test permissions" is accepted (its text is not
    read). *)
Theorem testPermissions_passes_iff w h :
  (exists b, result (testPermissions w) h = inr b)
  /\ heap_after (testPermissions w) h = h
  /\ (result (testPermissions w) h = inr true
      <-> exists c r,
            isInitialized h = true /\ vertexAI h = Some c
            /\ generateContent w (mkModel c (model h) (maxTokens h) (temperature h))
                               "Test permissions"
               = inr r).
Proof.
  unfold result, heap_after, testPermissions. cbn.
  destruct (isInitialized h) eqn:Hi; cbn.
  - destruct (vertexAI h) as [c|] eqn:Hc; cbn.
    + destruct (generateContent w (mkModel c (model h) (maxTokens h) (temperature h))
                                "Test permissions") as [e|r] eqn:G; cbn;
        (split; [eexists; reflexivity|]); (split; [reflexivity|]).
      * split; [discriminate|]. intros (c' & r & _ & [= <-] & G'). congruence.
      * split; [intros _|reflexivity]. exists c, r. auto.
    + (split; [eexists; reflexivity|]); (split; [reflexivity|]).
      split; [discriminate|]. intros (c' & r & _ & [=] & _).
  - (split; [eexists; reflexivity|]); (split; [reflexivity|]).
    split; [discriminate|]. intros (c' & r & [=] & _).
Qed.

(** X27: the test route reports the one call it makes: with the model
    attached it sends its fixed prompt, Say "Hello from Vertex AI
    Gemini!" in Japanese and Indonesian., once, answers 200 with the text
    as the model returned it (not trimmed) when the call and the reading
    of the text succeed, and 500 "Failed to connect to Vertex AI" with the
    cause's message otherwise; it never throws and never touches the
    object. *)
Theorem test_route_reports_the_call w req h m :
  vertexAIModel req = Some m ->
  let prompt := "Say " ++ Js.dq ++ "Hello from Vertex AI Gemini!" ++ Js.dq
                ++ " in Japanese and Indonesian." in
  trace (test_route w req) h = [EvGenerateContent m prompt]
  /\ heap_after (test_route w req) h = h
  /\ result (test_route w req) h
     = inr match match generateContent w m prompt with
                 | inl e => inl e
                 | inr r => response_text r
                 end with
           | inl e => Json 500 (failure_details "Failed to connect to Vertex AI" e)
           | inr text =>
               Json 200 (Js.Obj [ ("success", Js.Bool true);
                                  ("message", Js.Str "Vertex AI connection successful");
                                  ("response", Js.Str text);
                                  ("timestamp", Js.Str (now w)) ])
           end.
Proof.
  intros Hm prompt. unfold trace, heap_after, result, test_route. cbv zeta.
  unfold try_catch, bind. rewrite !run_settle.
  fold prompt. rewrite (run_ask w req prompt h m Hm).
  destruct (match generateContent w m prompt with
            | inl e => inl e | inr r => response_text r end) as [e|text];
    cbn; auto.
Qed.

Lemma test_route_reports_the_call_witness :
  trace (test_route Sample.world_denied (with_model Sample.client Sample.ready Sample.hello))
        Sample.ready
  = [EvGenerateContent (mkModel Sample.client "gemini-pro" (Js.Num 1000) (Js.Num (7 # 10)))
       ("Say " ++ Js.dq ++ "Hello from Vertex AI Gemini!" ++ Js.dq
        ++ " in Japanese and Indonesian.")]
  /\ result (test_route Sample.world_denied
               (with_model Sample.client Sample.ready Sample.hello)) Sample.ready
     = inr (Json 500 (failure_details "Failed to connect to Vertex AI"
                        (Js.new_Error "Permission denied"))).
Proof.
  destruct (test_route_reports_the_call Sample.world_denied
              (with_model Sample.client Sample.ready Sample.hello) Sample.ready
              (mkModel Sample.client (model Sample.ready) (maxTokens Sample.ready)
                       (temperature Sample.ready)) eq_refl) as (T & _ & R).
  split; [exact T | exact R].
Defined.
